(** * pocker-cli: the process lifecycle supervisor of [src/index.ts]

    A shallow embedding of the supervisor: the environment resolver, the
    PID store ([<name>.pid] files), the in-memory [childProcesses] table,
    start / stop / restart, the [exit] listener installed at spawn time,
    [inspect] and the [SIGINT] handler.

    Modelling conventions.
    - A JS object used as a dictionary ([process.env], [config.env],
      [cmdConfig.env], [childProcesses]) is the finite map of its own
      properties, as its TypeScript index signature describes it. The read
      [envVars[varName]] receives whatever name an argument template
      mentions, so for it the members that every object inherits from
      [Object.prototype] are part of the model; [commandsConfig[name]] and
      [childProcesses[name]] are read as own keys, which is what they are
      for every name that is not one of those members.
    - A start is modelled on the runs in which [fs.openSync], [spawn] and
      [fs.writeFileSync] come back: the log file opens, the spawn call
      returns (with or without a pid) and the pid file can be written.
    - [commandsConfig] is kept as an association list in [Object.keys]
      order, because the batch operations iterate over it.
    - The file system is seen through the [<name>.pid] files only; a pid
      file holds the decimal pid that [startProcess] wrote, so it is a map
      from names to pids.
    - The operating system is part of the state: which pids exist, which of
      them refuse our signals, and what the next [spawn] calls will return.
    - [console.log], [console.error], signals and spawns are appended to a
      trace, newest first. *)

From Stdlib Require Import Ascii String List.
From stdpp Require Import gmap strings list fin_maps.
Import ListNotations.
Local Open Scope string_scope.

(** ** Environment resolver *)

Module Env.

Abbreviation t := (gmap string string).

(** [{ ...sys, ...glob, ...proc }]: later spreads overwrite earlier ones.
    stdpp's union keeps the left operand's binding. *)
Definition spread3 (sys glob proc : t) : t := proc ∪ (glob ∪ sys).

(** [{ ...glob, ...proc }] *)
Definition spread2 (glob proc : t) : t := proc ∪ glob.

(** The members of [Object.prototype] that are functions. *)
Definition prototype_functions : list string :=
  ["__defineGetter__"; "__defineSetter__"; "hasOwnProperty";
   "__lookupGetter__"; "__lookupSetter__"; "isPrototypeOf";
   "propertyIsEnumerable"; "toString"; "valueOf"; "toLocaleString"].

(** What a read of [name] finds on [Object.prototype], as the string that
    [String.prototype.replace] makes of it when the callback returns it:
    [constructor] is the function [Object], [__proto__] is the prototype
    object itself, the others are functions named like their key. *)
Definition Object_prototype (name : string) : option string :=
  if String.eqb name "constructor" then
    Some "function Object() { [native code] }"
  else if String.eqb name "__proto__" then
    Some "[object Object]"
  else if bool_decide (name ∈ prototype_functions) then
    Some ("function " ++ name ++ "() { [native code] }")
  else None.

(** [envVars[varName] || ""]: an own key wins, then the prototype chain;
    [undefined] and the empty string give [""]. *)
Definition get_or_empty (envVars : t) (varName : string) : string :=
  match envVars !! varName with
  | Some v => v
  | None =>
      match Object_prototype varName with
      | Some inherited => inherited
      | None => ""
      end
  end.

End Env.

(** ** The regular expression [/\$\{(\w+)\}/g] *)

Module Template.

(** [\w] is [[A-Za-z0-9_]]. *)
Definition is_word_char (c : ascii) : bool :=
  let n := nat_of_ascii c in
  (((48 <=? n) && (n <=? 57))
   || ((65 <=? n) && (n <=? 90))
   || ((97 <=? n) && (n <=? 122))
   || (n =? 95))%nat.

(** The longest prefix of word characters, and what follows it: the greedy
    [\w+] never has to give a character back, since the [}] that must
    follow is not a word character. *)
Fixpoint span_word (s : string) : string * string :=
  match s with
  | String c rest =>
      if is_word_char c
      then let (w, r) := span_word rest in (String c w, r)
      else (EmptyString, s)
  | EmptyString => (EmptyString, EmptyString)
  end.

(** One attempt of [\$\{(\w+)\}] at the head of [s]: the captured name and
    the number of characters matched. *)
Definition match_here (s : string) : option (string * nat) :=
  match s with
  | String "$" (String "{" body) =>
      match span_word body with
      | (String c w, String "}" _) =>
          Some (String c w, 3 + String.length (String c w))
      | _ => None
      end
  | _ => None
  end.

(** [arg.replace(/\$\{(\w+)\}/g, f)]: scan from the left; at a position
    where the pattern matches, emit [f name] and resume after the match
    ([skip] counts the matched characters still to step over); elsewhere
    copy the character. *)
Fixpoint replace_from (f : string -> string) (skip : nat) (s : string) : string :=
  match s with
  | EmptyString => EmptyString
  | String c rest =>
      match skip with
      | S k => replace_from f k rest
      | O =>
          match match_here s with
          | Some (name, len) => f name ++ replace_from f (len - 1) rest
          | None => String c (replace_from f 0 rest)
          end
      end
  end.

Definition replace_all (f : string -> string) (s : string) : string :=
  replace_from f 0 s.

(** A variable name as [(\w+)] captures it: one or more word characters. *)
Fixpoint all_word (s : string) : bool :=
  match s with
  | EmptyString => true
  | String c rest => is_word_char c && all_word rest
  end.


(** The callback of [startProcess]:
    [(_match, varName) => envVars[varName] || ""] *)
Definition substitute (envVars : Env.t) (arg : string) : string :=
  replace_all (Env.get_or_empty envVars) arg.

End Template.

(** ** Data model *)

(** [interface CommandConfig]; [working_dir] and [log_file] of the README
    are not read by the code. *)
Record CommandConfig := {
  command : string;
  args : option (list string);
  env : option Env.t;
  restart_on_fail : option bool;
}.

(** OS process ids. [process.kill] with a pid that is not positive addresses
    a process group; [child.pid] is always positive. *)
Abbreviation pid := positive.

Inductive signal := SIG0 | SIGTERM.

(** What [process.kill] and the [fs] calls throw. *)
Inductive Exn :=
| ESRCH   (* process.kill: no such process *)
| EPERM   (* process.kill: the process exists, permission denied *)
| ENOENT. (* fs: no such file *)

(** The object returned by [spawn], together with the closure of the "exit"
    listener that [startProcess] attaches to it: the listener captures
    [name], [detach] and [cmdConfig]. *)
Record ChildProcess := {
  child_pid : option pid;
  listener_name : string;
  listener_detach : bool;
  listener_cmdConfig : CommandConfig;
}.

(** The object printed by [inspectProcess]. *)
Record InspectionData := {
  i_name : string;
  i_running : bool;               (* status: "running" / "stopped" *)
  i_pid : option pid;             (* pid, or null *)
  i_config : CommandConfig;       (* { name, ...cmdConfig } *)
  i_globalEnv : Env.t;
  i_combinedEnv : Env.t;
}.

(** Console output, one constructor per message of the source. *)
Inductive Message :=
| CommandNotFound (name : string)
    (* Command '<name>' not found in configuration. *)
| AlreadyRunning (name : string)
    (* Process '<name>' is already running. *)
| Started (name : string) (p : pid)
    (* Started '<name>' with PID <p> *)
| FailedToStart (name : string)
    (* Failed to start '<name>': PID is undefined. *)
| Exited (name : string) (code : option Z) (sig : option string)
    (* Process '<name>' exited with code <code> and signal <sig> *)
| Restarting (name : string)
    (* Restarting '<name>' due to failure... *)
| NoPidFile (name : string)
    (* No PID file found for '<name>'. Process not running? *)
| Stopped (name : string) (p : pid)
    (* Stopped '<name>' with PID <p> *)
| ErrorStopping (name : string) (p : pid) (err : Exn)
    (* Error stopping '<name>' with PID <p>: <err> *)
| ServicesStarted
    (* Services started. Press Ctrl+C to exit. *)
| ServicesStartedInBackground
    (* Services started in the background. *)
| NoServicesToStart
    (* No services to start. *)
| ShuttingDown
    (* Shutting down... *)
| Inspection (data : InspectionData).

Inductive Event :=
| ConsoleLog (m : Message)
| ConsoleError (m : Message)
| OpenLog (name : string)                 (* fs.openSync(logFile, "a") *)
| Spawn (cmd : string) (argv : list string) (envVars : Env.t)
        (detached : bool) (result : option pid)
| SignalSent (p : pid) (s : signal)       (* process.kill(p, s) went through *)
| ChildKill (c : ChildProcess) (s : signal)   (* child.kill(s) *)
| Unref (c : ChildProcess)                (* child.unref() *)
| StdinResume                             (* process.stdin.resume() *)
| ProcessExit.                            (* process.exit() *)

(** The state the program reads and writes. *)
Record World := {
  (** the [<name>.pid] files of the working directory *)
  pidFiles : gmap string pid;
  (** the module-level [childProcesses] object of this invocation *)
  childProcesses : gmap string ChildProcess;
  (** the processes that exist, each with whether it accepts our signals *)
  os_procs : gmap pid bool;
  (** what the [k]-th call of [spawn] yields as [child.pid] *)
  os_spawn : nat -> option pid;
  (** number of [spawn] calls made so far *)
  spawned : nat;
  (** everything observable, newest first *)
  trace : list Event;
}.

Definition set_pidFiles (f : gmap string pid -> gmap string pid) (w : World) : World :=
  {| pidFiles := f (pidFiles w); childProcesses := childProcesses w;
     os_procs := os_procs w; os_spawn := os_spawn w; spawned := spawned w;
     trace := trace w |}.

Definition set_childProcesses
    (f : gmap string ChildProcess -> gmap string ChildProcess) (w : World) : World :=
  {| pidFiles := pidFiles w; childProcesses := f (childProcesses w);
     os_procs := os_procs w; os_spawn := os_spawn w; spawned := spawned w;
     trace := trace w |}.

Definition emit (e : Event) (w : World) : World :=
  {| pidFiles := pidFiles w; childProcesses := childProcesses w;
     os_procs := os_procs w; os_spawn := os_spawn w; spawned := spawned w;
     trace := e :: trace w |}.

(** A successful spawn creates a process that accepts our signals. *)
Definition os_after_spawn (r : option pid) (w : World) : World :=
  {| pidFiles := pidFiles w; childProcesses := childProcesses w;
     os_procs := match r with
                 | Some p => <[p := true]> (os_procs w)
                 | None => os_procs w
                 end;
     os_spawn := os_spawn w; spawned := S (spawned w);
     trace := trace w |}.

(** ** Statements: state passing with exceptions *)

Inductive Result (A : Type) :=
| Ok (a : A)
| Throw (e : Exn).
Arguments Ok {A} a.
Arguments Throw {A} e.

Definition M (A : Type) : Type := World -> Result A * World.

#[global] Instance M_ret : MRet M := fun A a w => (Ok a, w).

#[global] Instance M_bind : MBind M := fun A B f m w =>
  match m w with
  | (Ok a, w') => f a w'
  | (Throw e, w') => (Throw e, w')
  end.

(** [try { body } catch (err) { handler(err) }] *)
Definition try_catch {A} (body : M A) (handler : Exn -> M A) : M A := fun w =>
  match body w with
  | (Ok a, w') => (Ok a, w')
  | (Throw e, w') => handler e w'
  end.

Definition get {A} (f : World -> A) : M A := fun w => (Ok (f w), w).
Definition modify (f : World -> World) : M unit := fun w => (Ok tt, f w).
Definition throw {A} (e : Exn) : M A := fun w => (Throw e, w).

(** [for (const x of xs) body(x)] *)
Fixpoint for_of {A} (xs : list A) (body : A -> M unit) : M unit :=
  match xs with
  | [] => mret tt
  | x :: rest => body x;; for_of rest body
  end.

Definition console_log (m : Message) : M unit := modify (emit (ConsoleLog m)).
Definition console_error (m : Message) : M unit := modify (emit (ConsoleError m)).

(** [process.kill(pid, sig)]: throws unless the process exists and accepts
    the signal; signal 0 only performs that check. *)
Definition process_kill (p : pid) (s : signal) : M unit :=
  procs ← get os_procs;
  match procs !! p with
  | None => throw ESRCH
  | Some false => throw EPERM
  | Some true =>
      match s with
      | SIG0 => mret tt
      | SIGTERM => modify (emit (SignalSent p SIGTERM))
      end
  end.

(** [fs.existsSync(pidFile)] *)
Definition existsSync (name : string) : M bool :=
  get (fun w => bool_decide (is_Some (pidFiles w !! name))).

(** [parseInt(fs.readFileSync(pidFile, "utf8"), 10)] *)
Definition read_pid (name : string) : M pid :=
  f ← get (fun w => pidFiles w !! name);
  match f with
  | Some p => mret p
  | None => throw ENOENT
  end.

(** [fs.unlinkSync(pidFile)] *)
Definition unlinkSync (name : string) : M unit :=
  f ← get (fun w => pidFiles w !! name);
  match f with
  | Some _ => modify (set_pidFiles (delete name))
  | None => throw ENOENT
  end.

(** [fs.writeFileSync(pidFile, child.pid.toString())] *)
Definition writeFileSync (name : string) (p : pid) : M unit :=
  modify (set_pidFiles <[name := p]>).

(** [spawn(command, args, options)]: the operating system decides whether a
    process, and so a pid, comes out. *)
Definition spawn (name : string) (detach : bool) (cmdConfig : CommandConfig)
    (argv : list string) (envVars : Env.t) : M ChildProcess :=
  k ← get spawned;
  r ← get (fun w => os_spawn w k);
  modify (os_after_spawn r);;
  modify (emit (Spawn (command cmdConfig) argv envVars detach r));;
  mret {| child_pid := r; listener_name := name; listener_detach := detach;
          listener_cmdConfig := cmdConfig |}.

(** [function isRunning(pid)] *)
Definition isRunning (p : pid) : M bool :=
  try_catch (process_kill p SIG0;; mret true) (fun _ => mret false).

(** [function isProcessRunning(name)] *)
Definition isProcessRunning (name : string) : M bool :=
  present ← existsSync name;
  if (present : bool) then
    p ← read_pid name;
    r ← isRunning p;
    if (r : bool) then mret true else unlinkSync name;; mret false
  else mret false.

(** ** The supervisor *)

Section Supervisor.

(** [config.commands], in [Object.keys] order. *)
Variable commandsConfig : list (string * CommandConfig).
(** [config.env], or [{}] when the configuration has none. *)
Variable defaultEnv : Env.t.
(** [process.env] *)
Variable process_env : Env.t.

(** [commandsConfig[name]] *)
Definition lookup_command (name : string) : option CommandConfig :=
  (list_to_map commandsConfig : gmap string CommandConfig) !! name.

(** [Object.keys(commandsConfig)] *)
Definition Object_keys : list string := commandsConfig.*1.

(** [name ? [name] : Object.keys(commandsConfig)]: an absent name and the
    empty string both select every configured command. *)
Definition selected (name : option string) : list string :=
  match name with
  | None | Some EmptyString => Object_keys
  | Some n => [n]
  end.

(** [function startProcess(name, detach)] *)
Definition startProcess (name : string) (detach : bool) : M unit :=
  match lookup_command name with
  | None => console_error (CommandNotFound name)
  | Some cmdConfig =>
      held ← get (fun w => childProcesses w !! name);
      running ← match held with
                | Some _ => mret true
                | None => isProcessRunning name
                end;
      if (running : bool) then console_log (AlreadyRunning name)
      else
        modify (emit (OpenLog name));;
        modify (emit (OpenLog name));;
        let envVars :=
          Env.spread3 process_env defaultEnv (default ∅ (env cmdConfig)) in
        let substitutedArgs :=
          Template.substitute envVars <$> default [] (args cmdConfig) in
        child ← spawn name detach cmdConfig substitutedArgs envVars;
        modify (set_childProcesses <[name := child]>);;
        match child_pid child with
        | Some p => writeFileSync name p;; console_log (Started name p)
        | None => console_error (FailedToStart name)
        end;;
        if detach then modify (emit (Unref child)) else mret tt
  end.

(** The listener [child.on("exit", (code, signal) => ...)] that
    [startProcess name detach] installs, [cmdConfig] being the definition
    it found. *)
Definition exitListener (name : string) (detach : bool) (cmdConfig : CommandConfig)
    (code : option Z) (sig : option string) : M unit :=
  console_log (Exited name code sig);;
  present ← existsSync name;
  (if (present : bool) then unlinkSync name else mret tt);;
  modify (set_childProcesses (delete name));;
  match restart_on_fail cmdConfig with
  | Some true => console_log (Restarting name);; startProcess name detach
  | _ => mret tt
  end.

(** The "exit" event of a child object runs the listener attached to it. *)
Definition emit_exit (c : ChildProcess) (code : option Z) (sig : option string) : M unit :=
  exitListener (listener_name c) (listener_detach c) (listener_cmdConfig c) code sig.

(** [k] "exit" events in a row, each on the child object that
    [childProcesses] holds for [name] at that moment. *)
Fixpoint exits_in_a_row (name : string) (code : option Z) (sig : option string)
    (k : nat) (w : World) : World :=
  match k with
  | O => w
  | S k' =>
      match childProcesses w !! name with
      | Some c => exits_in_a_row name code sig k' (emit_exit c code sig w).2
      | None => w
      end
  end.

(** [function startProcesses(name, detach)] *)
Definition startProcesses (name : option string) (detach : bool) : M unit :=
  for_of (selected name) (fun serviceName => startProcess serviceName detach);;
  held ← get childProcesses;
  if bool_decide (0 < size held) then
    if negb detach then
      console_log ServicesStarted;; modify (emit StdinResume)
    else console_log ServicesStartedInBackground
  else console_log NoServicesToStart.

(** [function stopProcess(name)] *)
Definition stopProcess (name : string) : M unit :=
  present ← existsSync name;
  if negb present then console_log (NoPidFile name)
  else
    p ← read_pid name;
    try_catch
      (process_kill p SIGTERM;;
       unlinkSync name;;
       console_log (Stopped name p);;
       held ← get (fun w => childProcesses w !! name);
       match held with
       | Some child =>
           modify (emit (ChildKill child SIGTERM));;
           modify (set_childProcesses (delete name))
       | None => mret tt
       end)
      (fun err => console_error (ErrorStopping name p err)).

(** [function stopProcesses(name)] *)
Definition stopProcesses (name : option string) : M unit :=
  for_of (selected name) stopProcess.

(** [function restartProcesses(name, detach)] *)
Definition restartProcesses (name : option string) (detach : bool) : M unit :=
  for_of (selected name)
    (fun serviceName => stopProcess serviceName;; startProcess serviceName detach).

(** [function inspectProcess(name)] *)
Definition inspectProcess (name : string) : M unit :=
  match lookup_command name with
  | None => console_error (CommandNotFound name)
  | Some cmdConfig =>
      present ← existsSync name;
      st ← (if (present : bool) then
              p ← read_pid name;
              r ← isRunning p;
              if (r : bool) then mret (true, Some p)
              else unlinkSync name;; mret (false, None)
            else mret (false, None));
      let combinedEnv := Env.spread2 defaultEnv (default ∅ (env cmdConfig)) in
      console_log (Inspection
        {| i_name := name; i_running := st.1; i_pid := st.2;
           i_config := cmdConfig; i_globalEnv := defaultEnv;
           i_combinedEnv := combinedEnv |})
  end.

(** [process.on("SIGINT", () => ...)] *)
Definition sigintHandler : M unit :=
  console_log ShuttingDown;;
  stopProcesses None;;
  modify (emit ProcessExit).

End Supervisor.

(** ** Observations on a run *)

(** The snapshot that the last [console.log] printed, if it printed one. *)
Definition last_inspection (w : World) : option InspectionData :=
  match trace w with
  | ConsoleLog (Inspection d) :: _ => Some d
  | _ => None
  end.

(** [process.kill(p, "SIGTERM")] went through at some point of the run. *)
Definition terminated (p : pid) (w : World) : Prop :=
  SignalSent p SIGTERM ∈ trace w.

(** ** Sample configurations and states *)

Module Demo.

Definition web : CommandConfig :=
  {| command := "python";
     args := Some ["-m"; "http.server"; "${PORT}"];
     env := Some {[ "PORT" := "8080" ]};
     restart_on_fail := None |}.

Definition worker : CommandConfig :=
  {| command := "node"; args := Some ["worker.js"]; env := None;
     restart_on_fail := Some true |}.

Definition commands : list (string * CommandConfig) :=
  [("web", web); ("worker", worker)].

Definition globalEnv : Env.t := <[ "A" := "2" ]> {[ "B" := "x" ]}.


(** Every spawn succeeds, with pids 100, 101, ... *)
Definition spawn_ok (k : nat) : option pid := Some (Pos.of_nat (100 + k)).
(** Every spawn comes back without a pid. *)
Definition spawn_fails (k : nat) : option pid := None.

(** Nothing runs, nothing is recorded. *)
Definition idle : World :=
  {| pidFiles := ∅; childProcesses := ∅; os_procs := ∅;
     os_spawn := spawn_ok; spawned := 0; trace := [] |}.

Definition idle_no_spawn : World :=
  {| pidFiles := ∅; childProcesses := ∅; os_procs := ∅;
     os_spawn := spawn_fails; spawned := 0; trace := [] |}.

(** An earlier detached invocation started "web" as pid 42; this
    invocation holds no child object. *)
Definition started_elsewhere : World :=
  {| pidFiles := {[ "web" := 42%positive ]}; childProcesses := ∅;
     os_procs := {[ 42%positive := true ]};
     os_spawn := spawn_ok; spawned := 0; trace := [] |}.

(** "web.pid" names pid 42, which no longer exists. *)
Definition stale : World :=
  {| pidFiles := {[ "web" := 42%positive ]}; childProcesses := ∅;
     os_procs := ∅;
     os_spawn := spawn_ok; spawned := 0; trace := [] |}.

(** [pocker start web], attached. *)
Definition after_start : World :=
  (startProcess commands ∅ ∅ "web" false idle).2.

(** The child object of that start. *)
Definition first_child : ChildProcess :=
  {| child_pid := Some 100%positive; listener_name := "web";
     listener_detach := false; listener_cmdConfig := web |}.

(** Then [restartProcesses("web")] in the same invocation: the first
    child has been signalled, its "exit" event is still to come. *)
Definition after_restart : World :=
  (restartProcesses commands ∅ ∅ (Some "web") false after_start).2.

(** "worker" is running attached, as pid 100. *)
Definition worker_running : World :=
  (startProcess commands ∅ ∅ "worker" false idle).2.

End Demo.

(** ** Further observations *)

(** Whether the character occurs in the string. *)
Fixpoint contains_char (c : ascii) (s : string) : bool :=
  match s with
  | EmptyString => false
  | String d rest => Ascii.eqb d c || contains_char c rest
  end.

(** The pid recorded for [name], when its process answers signal 0. *)
Definition live_pid (w : World) (name : string) : option pid :=
  match pidFiles w !! name with
  | Some p => if bool_decide (os_procs w !! p = Some true) then Some p else None
  | None => None
  end.

(** The events added since [before], newest first. *)
Definition added (before after : World) (es : list Event) : Prop :=
  trace after = (es ++ trace before)%list.

(** ** Status, list and logs *)

(** What [checkStatus], [listProcesses] and [showLogs] print. These commands
    write nothing but their report; the model returns that report as their
    value, line by line, and threads the state as before. *)
Inductive Line :=
| StatusRunning (name : string) (p : pid)
    (* Process '<name>' is running with PID <p> *)
| StatusNotRunning (name : string)
    (* Process '<name>' not running. *)
| ListingHeader
    (* Listing all processes: *)
| ListEntry (name : string) (running : option pid)
    (* - <name>: stopped   or   - <name>: running (PID <p>) *)
| LogFileMissing (name : string)
    (* Log file for '<name>' does not exist. *)
| LogText (text : string).
    (* the selected lines of the log, joined *)

(** [for (const x of xs) { ... console.log(line) }], one line per round. *)
Fixpoint for_of_lines {A} (xs : list A) (body : A -> M Line) : M (list Line) :=
  match xs with
  | [] => mret []
  | x :: rest =>
      l ← body x;
      ls ← for_of_lines rest body;
      mret (l :: ls)
  end.

(** The body of the loop of [checkStatus]. *)
Definition checkStatus_body (serviceName : string) : M Line :=
  present ← existsSync serviceName;
  if negb present then mret (StatusNotRunning serviceName)
  else
    p ← read_pid serviceName;
    r ← isRunning p;
    if (r : bool) then mret (StatusRunning serviceName p)
    else unlinkSync serviceName;; mret (StatusNotRunning serviceName).

(** The body of the loop of [listProcesses]. *)
Definition listProcesses_body (name : string) : M Line :=
  present ← existsSync name;
  status ← (if (present : bool) then
              p ← read_pid name;
              r ← isRunning p;
              if (r : bool) then mret (Some p)
              else unlinkSync name;; mret None
            else mret None);
  mret (ListEntry name status).

Section Queries.

(** [config.commands], in [Object.keys] order. *)
Variable commandsConfig : list (string * CommandConfig).

(** [function checkStatus(name)] *)
Definition checkStatus (name : option string) : M (list Line) :=
  for_of_lines (selected commandsConfig name) checkStatus_body.

(** [function listProcesses()] *)
Definition listProcesses : M (list Line) :=
  ls ← for_of_lines (Object_keys commandsConfig) listProcesses_body;
  mret (ListingHeader :: ls).

End Queries.

(** ** Log retrieval: [showLogs] without [--follow]

    Characters are UTF-16 code units below 256. Numbers are [NaN] or an
    exact integer: JavaScript rounds integers beyond 2^53, which is above
    any array length, so [slice] cannot tell the difference. *)

Module Logs.

Inductive num := NaN | Int (z : Z).

(** Unary minus. *)
Definition neg (n : num) : num :=
  match n with
  | NaN => NaN
  | Int z => Int (- z)
  end.

(** ToIntegerOrInfinity: [NaN] counts as 0. *)
Definition to_integer (n : num) : Z :=
  match n with
  | NaN => 0
  | Int z => z
  end.

(** White space and line terminators: TAB, LF, VT, FF, CR, SP, NBSP. *)
Definition is_space (c : ascii) : bool :=
  let n := nat_of_ascii c in
  (((9 <=? n) && (n <=? 13)) || (n =? 32) || (n =? 160))%nat.

Fixpoint trim_start (s : string) : string :=
  match s with
  | String c rest => if is_space c then trim_start rest else s
  | EmptyString => EmptyString
  end.

Fixpoint trim_end (s : string) : string :=
  match s with
  | EmptyString => EmptyString
  | String c rest =>
      match trim_end rest with
      | EmptyString => if is_space c then EmptyString else String c EmptyString
      | t => String c t
      end
  end.

(** [s.trim()] *)
Definition trim (s : string) : string := trim_end (trim_start s).

(** [s.split("\n")]; the empty string gives one empty line. *)
Fixpoint split_lines (s : string) : list string :=
  match s with
  | EmptyString => [EmptyString]
  | String c rest =>
      if Ascii.eqb c "010" then EmptyString :: split_lines rest
      else match split_lines rest with
           | l :: ls => String c l :: ls
           | [] => [String c EmptyString]
           end
  end.

(** [lines.join("\n")] *)
Fixpoint join_lines (ls : list string) : string :=
  match ls with
  | [] => EmptyString
  | [l] => l
  | l :: rest => l ++ String "010" (join_lines rest)
  end.

(** [a.slice(start)]: a negative [start] counts from the end, and both ends
    are clamped. *)
Definition slice {A} (start : num) (a : list A) : list A :=
  let len := Z.of_nat (length a) in
  let rel := to_integer start in
  let k := if (rel <? 0)%Z then Z.max (len + rel) 0 else Z.min rel len in
  drop (Z.to_nat k) a.

Definition digit_of (c : ascii) : option Z :=
  let n := nat_of_ascii c in
  if ((48 <=? n) && (n <=? 57))%nat then Some (Z.of_nat (n - 48)) else None.

(** The value of the longest prefix of decimal digits, if there is a digit. *)
Fixpoint digits (acc : Z) (seen : bool) (s : string) : option Z :=
  match s with
  | String c rest =>
      match digit_of c with
      | Some d => digits (10 * acc + d) true rest
      | None => if seen then Some acc else None
      end
  | EmptyString => if seen then Some acc else None
  end.

(** [parseInt(s, 10)]: leading white space, a sign, then digits up to the
    first character that is not one; [NaN] without a digit. *)
Definition parseInt10 (s : string) : num :=
  let body := trim_start s in
  let '(sign, rest) :=
    match body with
    | String "-" r => ((-1)%Z, r)
    | String "+" r => (1%Z, r)
    | _ => (1%Z, body)
    end in
  match digits 0 false rest with
  | Some z => Int (sign * z)
  | None => NaN
  end.

(** [options.lines || "10"] *)
Definition lines_or_default (lines : option string) : string :=
  match lines with
  | None | Some EmptyString => "10"
  | Some l => l
  end.

(** [function showLogs(name, options)] when [options.follow] is not set.
    [file] is the content of [<name>.log], when that file exists; [lines] is
    [options.lines]. The read is taken to succeed on a file that exists. *)
Definition showLogs (name : string) (file : option string) (lines : option string) : Line :=
  match file with
  | None => LogFileMissing name
  | Some data =>
      let numberOfLines := parseInt10 (lines_or_default lines) in
      let all := split_lines (trim data) in
      let lastLines := slice (neg numberOfLines) all in
      LogText (join_lines lastLines)
  end.

End Logs.

(** ** More sample states *)

Module Samples.

(** Three lines, each ended by a line feed. *)
Definition log : string :=
  "first" ++ String "010" ("second" ++ String "010" ("third" ++ String "010" "")).

(** "web.pid" names pid 7, a process that exists but refuses our signals. *)
Definition foreign : World :=
  {| pidFiles := {[ "web" := 7%positive ]}; childProcesses := ∅;
     os_procs := {[ 7%positive := false ]};
     os_spawn := Demo.spawn_ok; spawned := 0; trace := [] |}.

(** "web" failed to spawn in this invocation: a child object without pid,
    and no pid file. *)
Definition after_failed_spawn : World :=
  (startProcess Demo.commands ∅ ∅ "web" false Demo.idle_no_spawn).2.

(** "web.pid" names pid 42 while this invocation holds a child object of
    pid 100 for "web": the record was rewritten by another invocation. *)
Definition record_differs_from_child : World :=
  {| pidFiles := {[ "web" := 42%positive ]};
     childProcesses := {[ "web" := Demo.first_child ]};
     os_procs := <[ 42%positive := true ]> {[ 100%positive := true ]};
     os_spawn := Demo.spawn_ok; spawned := 1; trace := [] |}.

(** Both configured names run under an earlier detached invocation. *)
Definition all_elsewhere : World :=
  {| pidFiles := <[ "web" := 42%positive ]> {[ "worker" := 43%positive ]};
     childProcesses := ∅;
     os_procs := <[ 42%positive := true ]> {[ 43%positive := true ]};
     os_spawn := Demo.spawn_ok; spawned := 0; trace := [] |}.

End Samples.

(** * Properties *)

(** ** Strings *)

Section StringFacts.

Local Arguments String.append : simpl nomatch.



End StringFacts.

(** ** The placeholder pattern *)

Module TemplateFacts.
Import Template.

Local Arguments String.append : simpl nomatch.

(** [match_here] with its character tests spelled out. *)
Lemma match_here_unfold (s : string) :
  match_here s =
  match s with
  | String d (String b body) =>
      if (Ascii.eqb d "$" && Ascii.eqb b "{")%bool then
        match span_word body with
        | (String c w, String e _) =>
            if Ascii.eqb e "}"
            then Some (String c w, 3 + String.length (String c w))
            else None
        | _ => None
        end
      else None
  | _ => None
  end.
Proof.
  destruct s as [|d [|b body]].
  - reflexivity.
  - destruct d as [[] [] [] [] [] [] [] []]; reflexivity.
  - destruct d as [[] [] [] [] [] [] [] []]; try reflexivity.
    destruct b as [[] [] [] [] [] [] [] []]; try reflexivity.
    cbn [Ascii.eqb Bool.eqb andb].
    unfold match_here.
    destruct (span_word body) as [[|c w] [|e r]]; try reflexivity.
    destruct e as [[] [] [] [] [] [] [] []]; reflexivity.
Qed.


Lemma span_word_app (s : string) (c : ascii) (t : string) :
  is_word_char c = false ->
  span_word (s ++ String c t)
  = ((span_word s).1, (span_word s).2 ++ String c t)%string.
Proof.
  intros Hc. induction s as [|a s IH]; simpl.
  - now rewrite Hc.
  - destruct (is_word_char a); [|reflexivity].
    rewrite IH. now destruct (span_word s).
Qed.

Lemma span_word_all (v : string) : all_word v = true -> span_word v = (v, "").
Proof.
  induction v as [|a v IH]; simpl; [reflexivity|].
  intros [Ha Hv]%andb_prop. rewrite Ha, (IH Hv). reflexivity.
Qed.







(** The scanner on malformed and adjacent placeholders: an unterminated
    [${A] is copied, the empty [${}] is copied, a replacement is not
    rescanned. *)
Example replace_all_edge_cases :
  let f := Env.get_or_empty (<["A" := "${B}"]> {["B" := "y"]}) in
  replace_all f "${A${B}$${}${B}}" = "${Ay$${}y}"
  /\ replace_all f "$A ${A-B} ${B" = "$A ${A-B} ${B"
  /\ replace_all f "${A}${B}" = "${B}y"
  /\ replace_all f "${B_1}|${b}" = "|".
Proof. vm_compute. repeat split; reflexivity. Qed.

End TemplateFacts.

(** ** The three layers *)

Lemma spread3_lookup (sys glob proc : Env.t) (k : string) :
  Env.spread3 sys glob proc !! k =
  match proc !! k with
  | Some v => Some v
  | None => match glob !! k with
            | Some v => Some v
            | None => sys !! k
            end
  end.
Proof.
  unfold Env.spread3. rewrite !lookup_union.
  destruct (proc !! k), (glob !! k), (sys !! k); reflexivity.
Qed.

Lemma spread2_lookup (glob proc : Env.t) (k : string) :
  Env.spread2 glob proc !! k =
  match proc !! k with
  | Some v => Some v
  | None => glob !! k
  end.
Proof.
  unfold Env.spread2. rewrite lookup_union.
  destruct (proc !! k), (glob !! k); reflexivity.
Qed.

(** ** Running statements *)

(** Membership of a listed element. *)
Ltac in_list :=
  solve [repeat first [apply list_elem_of_here | apply list_elem_of_further]].

Ltac run :=
  unfold isProcessRunning, isRunning, existsSync, read_pid, unlinkSync,
    writeFileSync, process_kill, console_log, console_error, spawn, try_catch,
    get, modify, throw, mbind, M_bind, mret, M_ret in *;
  cbn beta iota in *.

(** Evaluate as far as the known lookups allow. *)
Tactic Notation "run_with" constr(H) :=
  run; repeat (progress (cbn; rewrite ?H)).
Tactic Notation "run_with" constr(H1) constr(H2) :=
  run; repeat (progress (cbn; rewrite ?H1, ?H2)).
Tactic Notation "run_with" constr(H1) constr(H2) constr(H3) :=
  run; repeat (progress (cbn; rewrite ?H1, ?H2, ?H3)).

Lemma set_pidFiles_id (n : string) (w : World) :
  pidFiles w !! n = None -> set_pidFiles (delete n) w = w.
Proof.
  intros H. destruct w as [pf cp os sp k tr]; unfold set_pidFiles; cbn in *.
  f_equal. now apply delete_id.
Qed.

Lemma set_childProcesses_id (n : string) (w : World) :
  childProcesses w !! n = None -> set_childProcesses (delete n) w = w.
Proof.
  intros H. destruct w as [pf cp os sp k tr]; unfold set_childProcesses; cbn in *.
  f_equal. now apply delete_id.
Qed.

Lemma bind_run {A B} (m : M A) (f : A -> M B) (w : World) :
  (m ≫= f) w =
  match m w with
  | (Ok a, w') => f a w'
  | (Throw e, w') => (Throw e, w')
  end.
Proof. reflexivity. Qed.

(** *** The liveness probe *)

Lemma isRunning_spec (p : pid) (w : World) :
  isRunning p w = (Ok (bool_decide (os_procs w !! p = Some true)), w).
Proof.
  run. destruct (os_procs w !! p) as [[]|] eqn:E; reflexivity.
Qed.

Lemma isProcessRunning_spec (n : string) (w : World) :
  isProcessRunning n w =
  match pidFiles w !! n with
  | None => (Ok false, w)
  | Some p =>
      if bool_decide (os_procs w !! p = Some true) then (Ok true, w)
      else (Ok false, set_pidFiles (delete n) w)
  end.
Proof.
  destruct (pidFiles w !! n) as [p|] eqn:H.
  - destruct (os_procs w !! p) as [[]|] eqn:E; run_with H E; reflexivity.
  - run_with H. reflexivity.
Qed.

(** A check that answers "not running" leaves no record behind. *)
Lemma isProcessRunning_false (n : string) (w : World) :
  (isProcessRunning n w).1 = Ok false ->
  isProcessRunning n w = (Ok false, set_pidFiles (delete n) w).
Proof.
  rewrite isProcessRunning_spec.
  destruct (pidFiles w !! n) as [p|] eqn:H.
  - case_bool_decide; [discriminate | reflexivity].
  - intros _. now rewrite set_pidFiles_id.
Qed.

(** *** Stop *)

Lemma stopProcess_spec (n : string) (w : World) :
  stopProcess n w =
  (Ok tt,
   match pidFiles w !! n with
   | None => emit (ConsoleLog (NoPidFile n)) w
   | Some p =>
       match os_procs w !! p with
       | Some true =>
           let w1 := emit (ConsoleLog (Stopped n p))
                       (set_pidFiles (delete n) (emit (SignalSent p SIGTERM) w)) in
           match childProcesses w !! n with
           | Some child =>
               set_childProcesses (delete n) (emit (ChildKill child SIGTERM) w1)
           | None => w1
           end
       | Some false => emit (ConsoleError (ErrorStopping n p EPERM)) w
       | None => emit (ConsoleError (ErrorStopping n p ESRCH)) w
       end
   end).
Proof.
  unfold stopProcess.
  destruct (pidFiles w !! n) as [p|] eqn:H.
  - destruct (os_procs w !! p) as [[]|] eqn:E; run_with H E; try reflexivity.
    destruct (childProcesses w !! n); reflexivity.
  - run_with H. reflexivity.
Qed.

Lemma process_kill_throws (p : pid) (e : Exn) (w : World) :
  (process_kill p SIGTERM w).1 = Throw e ->
  (os_procs w !! p = Some false /\ e = EPERM)
  \/ (os_procs w !! p = None /\ e = ESRCH).
Proof.
  run. destruct (os_procs w !! p) as [[]|]; cbn; intros K;
    try discriminate; injection K as <-; auto.
Qed.

Lemma stopProcess_ok (n : string) (w : World) : (stopProcess n w).1 = Ok tt.
Proof. now rewrite stopProcess_spec. Qed.

Lemma stopProcess_os_procs (n : string) (w : World) :
  os_procs (stopProcess n w).2 = os_procs w.
Proof.
  rewrite stopProcess_spec; cbn.
  destruct (pidFiles w !! n) as [p|]; [|reflexivity].
  destruct (os_procs w !! p) as [[]|]; try reflexivity.
  destruct (childProcesses w !! n); reflexivity.
Qed.

Lemma stopProcess_pidFiles_other (n m : string) (w : World) :
  m <> n -> pidFiles (stopProcess n w).2 !! m = pidFiles w !! m.
Proof.
  intros Hne. rewrite stopProcess_spec; cbn.
  destruct (pidFiles w !! n) as [p|]; [|reflexivity].
  destruct (os_procs w !! p) as [[]|]; try reflexivity.
  destruct (childProcesses w !! n); cbn; now rewrite lookup_delete_ne.
Qed.

Lemma stopProcess_childProcesses_other (n m : string) (w : World) :
  m <> n -> childProcesses (stopProcess n w).2 !! m = childProcesses w !! m.
Proof.
  intros Hne. rewrite stopProcess_spec; cbn.
  destruct (pidFiles w !! n) as [p|]; [|reflexivity].
  destruct (os_procs w !! p) as [[]|]; try reflexivity.
  destruct (childProcesses w !! n); cbn; [now rewrite lookup_delete_ne | reflexivity].
Qed.

(** Stop never creates a record. *)
Lemma stopProcess_pidFiles_sub (n m : string) (p : pid) (w : World) :
  pidFiles (stopProcess n w).2 !! m = Some p -> pidFiles w !! m = Some p.
Proof.
  rewrite stopProcess_spec; cbn.
  destruct (pidFiles w !! n) as [q|] eqn:H; [|auto].
  destruct (os_procs w !! q) as [[]|]; auto.
  destruct (childProcesses w !! n); cbn;
    intros L; apply lookup_delete_Some in L; tauto.
Qed.

(** Without a record, Stop leaves the child table alone. *)
Lemma stopProcess_childProcesses_absent (n m : string) (w : World) :
  pidFiles w !! m = None ->
  childProcesses (stopProcess n w).2 !! m = childProcesses w !! m.
Proof.
  intros Hm. destruct (decide (m = n)) as [->|Hne].
  - rewrite stopProcess_spec; cbn. now rewrite Hm.
  - now apply stopProcess_childProcesses_other.
Qed.

(** What Stop adds to the trace. *)
Lemma stopProcess_trace (n : string) (w : World) :
  exists es, trace (stopProcess n w).2 = (es ++ trace w)%list
    /\ forall q, SignalSent q SIGTERM ∈ es ->
         pidFiles w !! n = Some q /\ os_procs w !! q = Some true.
Proof.
  rewrite stopProcess_spec; cbn.
  destruct (pidFiles w !! n) as [p|] eqn:H.
  - destruct (os_procs w !! p) as [[]|] eqn:E.
    + destruct (childProcesses w !! n) as [c|]; cbn.
      * exists [ChildKill c SIGTERM; ConsoleLog (Stopped n p); SignalSent p SIGTERM].
        split; [reflexivity|]. intros q Hq.
        repeat (apply elem_of_cons in Hq as [Hq|Hq]; [try discriminate|]).
        -- injection Hq as ->. auto.
        -- inversion Hq.
      * exists [ConsoleLog (Stopped n p); SignalSent p SIGTERM].
        split; [reflexivity|]. intros q Hq.
        repeat (apply elem_of_cons in Hq as [Hq|Hq]; [try discriminate|]).
        -- injection Hq as ->. auto.
        -- inversion Hq.
    + exists [ConsoleError (ErrorStopping n p EPERM)]. split; [reflexivity|].
      intros q Hq. apply elem_of_cons in Hq as [Hq|Hq]; [discriminate | inversion Hq].
    + exists [ConsoleError (ErrorStopping n p ESRCH)]. split; [reflexivity|].
      intros q Hq. apply elem_of_cons in Hq as [Hq|Hq]; [discriminate | inversion Hq].
  - exists [ConsoleLog (NoPidFile n)]. split; [reflexivity|].
    intros q Hq. apply elem_of_cons in Hq as [Hq|Hq]; [discriminate | inversion Hq].
Qed.

(** *** Start *)

Section StartFacts.

Variable commandsConfig : list (string * CommandConfig).
Variables defaultEnv process_env : Env.t.

Local Abbreviation start := (startProcess commandsConfig defaultEnv process_env).
Local Abbreviation lookup_cmd := (lookup_command commandsConfig).

Lemma startProcess_not_found (n : string) (detach : bool) (w : World) :
  lookup_cmd n = None ->
  start n detach w = (Ok tt, emit (ConsoleError (CommandNotFound n)) w).
Proof. intros L. unfold startProcess. now rewrite L. Qed.

Lemma startProcess_held (n : string) (def : CommandConfig) (detach : bool) (w : World) :
  lookup_cmd n = Some def ->
  is_Some (childProcesses w !! n) ->
  start n detach w = (Ok tt, emit (ConsoleLog (AlreadyRunning n)) w).
Proof.
  intros L [c Hc]. unfold startProcess. rewrite L. run_with Hc. reflexivity.
Qed.

Lemma startProcess_live (n : string) (def : CommandConfig) (p : pid)
    (detach : bool) (w : World) :
  lookup_cmd n = Some def ->
  pidFiles w !! n = Some p ->
  os_procs w !! p = Some true ->
  start n detach w = (Ok tt, emit (ConsoleLog (AlreadyRunning n)) w).
Proof.
  intros L H E. destruct (childProcesses w !! n) as [c|] eqn:Hc.
  - eapply startProcess_held; eauto.
  - unfold startProcess. rewrite L. run_with Hc H E. reflexivity.
Qed.

(** A stale record is healed by the check, and the start goes on from the
    healed state. *)
Lemma startProcess_heals (n : string) (def : CommandConfig) (detach : bool)
    (w : World) :
  lookup_cmd n = Some def ->
  childProcesses w !! n = None ->
  (isProcessRunning n w).1 = Ok false ->
  start n detach w = start n detach (set_pidFiles (delete n) w).
Proof.
  intros L Hc Hr. unfold startProcess. rewrite L.
  pose proof (isProcessRunning_false n w Hr) as E1.
  assert (isProcessRunning n (set_pidFiles (delete n) w)
          = (Ok false, set_pidFiles (delete n) w)) as E2.
  { rewrite isProcessRunning_spec. cbn. now rewrite lookup_delete_eq. }
  rewrite !(bind_run (get _)). unfold get. cbn [set_pidFiles childProcesses].
  rewrite Hc. rewrite !(bind_run (isProcessRunning n)), E1, E2. reflexivity.
Qed.

(** The start of a name that is neither held nor recorded. *)
Lemma startProcess_fresh (n : string) (def : CommandConfig) (detach : bool)
    (w : World) :
  lookup_cmd n = Some def ->
  childProcesses w !! n = None ->
  pidFiles w !! n = None ->
  start n detach w =
  (Ok tt,
   let r := os_spawn w (spawned w) in
   let envVars := Env.spread3 process_env defaultEnv (default ∅ (env def)) in
   let argv := Template.substitute envVars <$> default [] (args def) in
   let child := {| child_pid := r; listener_name := n;
                   listener_detach := detach; listener_cmdConfig := def |} in
   let w1 := set_childProcesses <[n := child]>
               (emit (Spawn (command def) argv envVars detach r)
                  (os_after_spawn r (emit (OpenLog n) (emit (OpenLog n) w)))) in
   let w2 := match r with
             | Some p => emit (ConsoleLog (Started n p)) (set_pidFiles <[n := p]> w1)
             | None => emit (ConsoleError (FailedToStart n)) w1
             end in
   if detach then emit (Unref child) w2 else w2).
Proof.
  intros L Hc H. unfold startProcess. rewrite L. run_with Hc H.
  destruct (os_spawn w (spawned w)), detach; reflexivity.
Qed.

(** What such a start leaves behind, field by field. *)
Lemma startProcess_fresh_fields (n : string) (def : CommandConfig)
    (detach : bool) (w : World) :
  lookup_cmd n = Some def ->
  childProcesses w !! n = None ->
  pidFiles w !! n = None ->
  let out := start n detach w in
  let r := os_spawn w (spawned w) in
  let envVars := Env.spread3 process_env defaultEnv (default ∅ (env def)) in
  let argv := Template.substitute envVars <$> default [] (args def) in
  out.1 = Ok tt
  /\ spawned out.2 = S (spawned w)
  /\ childProcesses out.2 !! n
     = Some {| child_pid := r; listener_name := n;
               listener_detach := detach; listener_cmdConfig := def |}
  /\ pidFiles out.2 !! n = r
  /\ os_procs out.2 = match r with
                      | Some p => <[p := true]> (os_procs w)
                      | None => os_procs w
                      end
  /\ exists es, trace out.2 = (es ++ trace w)%list
       /\ Spawn (command def) argv envVars detach r ∈ es
       /\ (r = None -> ConsoleError (FailedToStart n) ∈ es).
Proof.
  intros L Hc H. cbv zeta. rewrite (startProcess_fresh n def detach w L Hc H).
  cbn [fst snd].
  destruct (os_spawn w (spawned w)) as [p|], detach; cbn;
    rewrite ?lookup_insert_eq; repeat split; try assumption.
  - eexists [_; _; _; _; _]. split; [reflexivity|].
    split; [in_list | discriminate].
  - eexists [_; _; _; _]. split; [reflexivity|].
    split; [in_list | discriminate].
  - eexists [_; _; _; _; _]. split; [reflexivity|]. split; [|intros _]; in_list.
  - eexists [_; _; _; _]. split; [reflexivity|]. split; [|intros _]; in_list.
Qed.

End StartFacts.

(** *** The "exit" listener *)

Section ExitFacts.

Variable commandsConfig : list (string * CommandConfig).
Variables defaultEnv process_env : Env.t.

Local Abbreviation start := (startProcess commandsConfig defaultEnv process_env).
Local Abbreviation on_exit := (exitListener commandsConfig defaultEnv process_env).

(** The state once the listener has removed the pid file and its entry of
    [childProcesses], before it looks at [restart_on_fail]. *)
Lemma exitListener_spec (n : string) (detach : bool) (def : CommandConfig)
    (code : option Z) (sig : option string) (w : World) :
  on_exit n detach def code sig w =
  let w0 := set_childProcesses (delete n)
              (set_pidFiles (delete n) (emit (ConsoleLog (Exited n code sig)) w)) in
  match restart_on_fail def with
  | Some true => start n detach (emit (ConsoleLog (Restarting n)) w0)
  | _ => (Ok tt, w0)
  end.
Proof.
  unfold exitListener. cbv zeta.
  destruct (pidFiles w !! n) as [p|] eqn:H.
  - run_with H. destruct (restart_on_fail def) as [[]|]; reflexivity.
  - rewrite (set_pidFiles_id n (emit _ w)) by exact H.
    run_with H. destruct (restart_on_fail def) as [[]|]; reflexivity.
Qed.

Local Abbreviation lookup_cmd := (lookup_command commandsConfig).

(** With [restart_on_fail] set, the listener ends in a start that spawns. *)
Lemma exitListener_restarts (n : string) (def : CommandConfig) (detach : bool)
    (code : option Z) (sig : option string) (w : World) :
  lookup_cmd n = Some def ->
  restart_on_fail def = Some true ->
  let out := on_exit n detach def code sig w in
  let r := os_spawn w (spawned w) in
  (exists w0,
      pidFiles w0 !! n = None /\ childProcesses w0 !! n = None
      /\ out = start n detach w0)
  /\ out.1 = Ok tt
  /\ spawned out.2 = S (spawned w)
  /\ (exists argv envVars, Spawn (command def) argv envVars detach r ∈ trace out.2)
  /\ childProcesses out.2 !! n
     = Some {| child_pid := r; listener_name := n;
               listener_detach := detach; listener_cmdConfig := def |}
  /\ pidFiles out.2 !! n = r
  /\ (forall p, r = Some p -> os_procs out.2 !! p = Some true).
Proof.
  intros L Hflag. cbv zeta.
  rewrite exitListener_spec. cbv zeta. rewrite Hflag.
  set (w0 := emit (ConsoleLog (Restarting n)) _).
  assert (pidFiles w0 !! n = None) as Hpid0 by (cbn; apply lookup_delete_eq).
  assert (childProcesses w0 !! n = None) as Hc0 by (cbn; apply lookup_delete_eq).
  destruct (startProcess_fresh_fields _ defaultEnv process_env n def detach w0 L Hc0 Hpid0)
    as (Hok & Hsp & Hchild & Hpid & Hos & es & Htr & Hin & _).
  cbn [w0 emit set_childProcesses set_pidFiles os_spawn spawned os_procs]
    in Hsp, Hchild, Hpid, Hos, Hin.
  repeat split; try assumption.
  - exists w0. auto.
  - do 2 eexists. rewrite Htr. apply elem_of_app. left. exact Hin.
  - intros p Hp. rewrite Hos, Hp. apply lookup_insert_eq.
Qed.

(** Nothing bounds the restarts: [k] exits in a row give [k] spawns. *)
Lemma exits_in_a_row_spawned (n : string) (def : CommandConfig) (detach : bool)
    (code : option Z) (sig : option string) :
  lookup_cmd n = Some def ->
  restart_on_fail def = Some true ->
  forall (k : nat) (w : World) (r : option pid),
    childProcesses w !! n
    = Some {| child_pid := r; listener_name := n;
              listener_detach := detach; listener_cmdConfig := def |} ->
    spawned (exits_in_a_row commandsConfig defaultEnv process_env n code sig k w)
    = spawned w + k.
Proof.
  intros L Hflag. induction k as [|k IH]; intros w r Hc; cbn [exits_in_a_row].
  - lia.
  - rewrite Hc. unfold emit_exit. cbn [listener_name listener_detach listener_cmdConfig].
    destruct (exitListener_restarts n def detach code sig w L Hflag)
      as (_ & _ & Hsp & _ & Hchild & _).
    rewrite (IH _ _ Hchild), Hsp. lia.
Qed.

End ExitFacts.

(** ** Batches *)

Lemma for_of_stop_ok (names : list string) (w : World) :
  (for_of names stopProcess w).1 = Ok tt.
Proof.
  revert w. induction names as [|n names IH]; intros w; [reflexivity|].
  cbn [for_of]. rewrite bind_run.
  rewrite (surjective_pairing (stopProcess n w)), stopProcess_ok. apply IH.
Qed.

Lemma for_of_stop_cons (n : string) (names : list string) (w : World) :
  for_of (n :: names) stopProcess w = for_of names stopProcess (stopProcess n w).2.
Proof.
  cbn [for_of]. rewrite bind_run.
  now rewrite (surjective_pairing (stopProcess n w)), stopProcess_ok.
Qed.

(** * The claims *)

(** ** C7: the stale-record check heals once and is idempotent *)

(** C7. When the pid file of [n] names a pid that the liveness probe reports
    dead, [isProcessRunning n] removes the file and answers "not running";
    an immediate second call answers "not running" again, without an
    exception and without touching the state, the file staying absent. *)
Theorem C7_check_heals_and_is_idempotent (n : string) (p : pid) (w : World) :
  pidFiles w !! n = Some p ->
  (isRunning p w).1 = Ok false ->
  let healed := set_pidFiles (delete n) w in
  isProcessRunning n w = (Ok false, healed)
  /\ pidFiles healed !! n = None
  /\ isProcessRunning n healed = (Ok false, healed).
Proof.
  intros H Hdead. cbv zeta.
  rewrite isRunning_spec in Hdead. cbn in Hdead.
  assert (pidFiles (set_pidFiles (delete n) w) !! n = None) as Hgone.
  { cbn. apply lookup_delete_eq. }
  repeat split.
  - rewrite isProcessRunning_spec, H.
    case_bool_decide; [discriminate | reflexivity].
  - exact Hgone.
  - rewrite isProcessRunning_spec, Hgone. reflexivity.
Qed.

Lemma C7_witness :
  isProcessRunning "web" Demo.stale
    = (Ok false, set_pidFiles (delete "web") Demo.stale)
  /\ pidFiles (set_pidFiles (delete "web") Demo.stale) !! "web" = None
  /\ isProcessRunning "web" (set_pidFiles (delete "web") Demo.stale)
    = (Ok false, set_pidFiles (delete "web") Demo.stale).
Proof.
  apply (C7_check_heals_and_is_idempotent "web" 42%positive Demo.stale);
    reflexivity.
Defined.

(** ** C8: stopping a name that has no pid file *)

(** C8. When [n] has no pid file, [stopProcess n] returns normally, prints
    "No PID file found" and changes nothing else: no signal, no file, no
    child entry. In a batch, the loop goes on with the remaining names from
    that same state, and the whole batch returns normally. *)
Theorem C8_stop_without_record (n : string) (w : World) :
  pidFiles w !! n = None ->
  stopProcess n w = (Ok tt, emit (ConsoleLog (NoPidFile n)) w)
  /\ (forall rest,
        for_of (n :: rest) stopProcess w
        = for_of rest stopProcess (emit (ConsoleLog (NoPidFile n)) w))
  /\ (forall rest, (for_of (n :: rest) stopProcess w).1 = Ok tt).
Proof.
  intros H.
  assert (stopProcess n w = (Ok tt, emit (ConsoleLog (NoPidFile n)) w)) as E.
  { rewrite stopProcess_spec, H. reflexivity. }
  repeat split.
  - exact E.
  - intros rest. rewrite for_of_stop_cons, E. reflexivity.
  - intros rest. apply for_of_stop_ok.
Qed.

Lemma C8_witness :
  stopProcess "worker" Demo.started_elsewhere
    = (Ok tt, emit (ConsoleLog (NoPidFile "worker")) Demo.started_elsewhere)
  /\ (forall rest,
        for_of ("worker" :: rest) stopProcess Demo.started_elsewhere
        = for_of rest stopProcess
            (emit (ConsoleLog (NoPidFile "worker")) Demo.started_elsewhere))
  /\ (forall rest,
        (for_of ("worker" :: rest) stopProcess Demo.started_elsewhere).1 = Ok tt).
Proof.
  apply (C8_stop_without_record "worker" Demo.started_elsewhere). reflexivity.
Defined.

(** ** C2: a termination signal that cannot be delivered *)

(** The pid file survives a failed [process.kill]: "web.pid" names the dead
    pid 42, the signal fails with ESRCH, and the file is still there after
    [stopProcess]. *)
Lemma C2_counterexample :
  ~ (forall (n : string) (p : pid) (e : Exn) (w : World),
       pidFiles w !! n = Some p ->
       (process_kill p SIGTERM w).1 = Throw e ->
       pidFiles (stopProcess n w).2 !! n = None).
Proof.
  intros claim.
  specialize (claim "web" 42%positive ESRCH Demo.stale eq_refl eq_refl).
  vm_compute in claim. discriminate.
Qed.

(** C2, amended. When the pid file of [n] exists and [process.kill] throws,
    [stopProcess n] returns normally, reports the error for that name and
    leaves everything else as it was, the pid file included; a second
    [stopProcess n] therefore meets the same record and reports the same
    error again. *)
Theorem C2_failed_signal_keeps_record (n : string) (p : pid) (e : Exn) (w : World) :
  pidFiles w !! n = Some p ->
  (process_kill p SIGTERM w).1 = Throw e ->
  let w' := emit (ConsoleError (ErrorStopping n p e)) w in
  stopProcess n w = (Ok tt, w')
  /\ pidFiles w' !! n = Some p
  /\ stopProcess n w' = (Ok tt, emit (ConsoleError (ErrorStopping n p e)) w').
Proof.
  intros H K. cbv zeta.
  apply process_kill_throws in K as [[E ->]|[E ->]];
    repeat split; try exact H;
    rewrite stopProcess_spec; cbn [emit pidFiles os_procs];
    rewrite H, E; reflexivity.
Qed.

Lemma C2_witness :
  let w' := emit (ConsoleError (ErrorStopping "web" 42%positive ESRCH)) Demo.stale in
  stopProcess "web" Demo.stale = (Ok tt, w')
  /\ pidFiles w' !! "web" = Some 42%positive
  /\ stopProcess "web" w'
     = (Ok tt, emit (ConsoleError (ErrorStopping "web" 42%positive ESRCH)) w').
Proof.
  apply (C2_failed_signal_keeps_record "web" 42%positive ESRCH Demo.stale);
    reflexivity.
Defined.

Section StartClaims.

Variable commandsConfig : list (string * CommandConfig).
Variables defaultEnv process_env : Env.t.

Local Abbreviation start := (startProcess commandsConfig defaultEnv process_env).
Local Abbreviation lookup_cmd := (lookup_command commandsConfig).
Local Abbreviation on_exit := (exitListener commandsConfig defaultEnv process_env).

(** ** C6: starting what is already running *)


(** ** C10: a spawn that yields no pid *)


(** ** C4: restart on every exit *)

(** C4. For a configured name [n] whose definition has [restart_on_fail]
    set, the "exit" listener, whatever the exit code and signal, removes
    the pid file and the [childProcesses] entry and goes straight into
    [startProcess n] with the [detach] it captured; that start does spawn:
    one more [spawn] call with the same [detach], a new child object in
    [childProcesses] carrying the same listener, and a pid file holding
    the new pid, whose process exists. Nothing bounds the repetition: [k]
    further exits give [k] further spawns. *)
Theorem C4_exit_restarts_unconditionally (n : string) (def : CommandConfig)
    (detach : bool) (code : option Z) (sig : option string) (w : World) :
  lookup_cmd n = Some def ->
  restart_on_fail def = Some true ->
  let out := on_exit n detach def code sig w in
  let r := os_spawn w (spawned w) in
  (exists w0,
      pidFiles w0 !! n = None /\ childProcesses w0 !! n = None
      /\ out = start n detach w0)
  /\ out.1 = Ok tt
  /\ spawned out.2 = S (spawned w)
  /\ (exists argv envVars, Spawn (command def) argv envVars detach r ∈ trace out.2)
  /\ childProcesses out.2 !! n
     = Some {| child_pid := r; listener_name := n;
               listener_detach := detach; listener_cmdConfig := def |}
  /\ pidFiles out.2 !! n = r
  /\ (forall p, r = Some p -> os_procs out.2 !! p = Some true)
  /\ (forall k code' sig',
        spawned (exits_in_a_row commandsConfig defaultEnv process_env
                   n code' sig' k out.2)
        = S (spawned w) + k).
Proof.
  intros L Hflag. cbv zeta.
  destruct (exitListener_restarts _ defaultEnv process_env n def detach code sig w L Hflag)
    as (H0 & Hok & Hsp & Hev & Hchild & Hpid & Hos).
  repeat split; try assumption.
  intros k code' sig'.
  rewrite (exits_in_a_row_spawned _ defaultEnv process_env n def detach code' sig'
             L Hflag k _ _ Hchild).
  now rewrite Hsp.
Qed.

(** ** C9: the listener removes the record by name *)

(** C9. The "exit" listener of a child of [n] removes the pid file of [n]
    whatever pid is stored in it: if the file holds the pid [p_new] of a
    newer, living instance, different from the pid of the exiting child,
    the listener still deletes it (and the newer child's entry of
    [childProcesses]), while [p_new] stays alive. What follows is the
    usual [restart_on_fail] decision, taken on the state without the
    record. *)
Theorem C9_exit_removes_record_by_name (c : ChildProcess) (p_old p_new : pid)
    (code : option Z) (sig : option string) (w : World) :
  child_pid c = Some p_old ->
  pidFiles w !! listener_name c = Some p_new ->
  p_new <> p_old ->
  os_procs w !! p_new = Some true ->
  let n := listener_name c in
  let out := emit_exit commandsConfig defaultEnv process_env c code sig w in
  exists w0,
    pidFiles w0 !! n = None
    /\ childProcesses w0 !! n = None
    /\ os_procs w0 !! p_new = Some true
    /\ (forall m, m <> n -> pidFiles w0 !! m = pidFiles w !! m)
    /\ out = match restart_on_fail (listener_cmdConfig c) with
             | Some true =>
                 start n (listener_detach c) (emit (ConsoleLog (Restarting n)) w0)
             | _ => (Ok tt, w0)
             end.
Proof.
  intros _ H _ Halive. cbv zeta. unfold emit_exit.
  rewrite exitListener_spec. cbv zeta.
  eexists. split; [|split; [|split; [|split; [|reflexivity]]]]; cbn.
  - apply lookup_delete_eq.
  - apply lookup_delete_eq.
  - exact Halive.
  - intros m Hm. now apply lookup_delete_ne.
Qed.

End StartClaims.




Lemma C4_witness :
  let out := exitListener Demo.commands ∅ ∅ "worker" false Demo.worker
               (Some 0%Z) None Demo.worker_running in
  let r := os_spawn Demo.worker_running (spawned Demo.worker_running) in
  (exists w0,
      pidFiles w0 !! "worker" = None /\ childProcesses w0 !! "worker" = None
      /\ out = startProcess Demo.commands ∅ ∅ "worker" false w0)
  /\ out.1 = Ok tt
  /\ spawned out.2 = S (spawned Demo.worker_running)
  /\ (exists argv envVars,
        Spawn (command Demo.worker) argv envVars false r ∈ trace out.2)
  /\ childProcesses out.2 !! "worker"
     = Some {| child_pid := r; listener_name := "worker";
               listener_detach := false; listener_cmdConfig := Demo.worker |}
  /\ pidFiles out.2 !! "worker" = r
  /\ (forall p, r = Some p -> os_procs out.2 !! p = Some true)
  /\ (forall k code' sig',
        spawned (exits_in_a_row Demo.commands ∅ ∅ "worker" code' sig' k out.2)
        = S (spawned Demo.worker_running) + k).
Proof.
  apply (C4_exit_restarts_unconditionally Demo.commands ∅ ∅ "worker" Demo.worker
           false (Some 0%Z) None Demo.worker_running); reflexivity.
Defined.

Lemma C9_witness :
  let out := emit_exit Demo.commands ∅ ∅ Demo.first_child None (Some "SIGTERM")
               Demo.after_restart in
  exists w0,
    pidFiles w0 !! "web" = None
    /\ childProcesses w0 !! "web" = None
    /\ os_procs w0 !! 101%positive = Some true
    /\ (forall m, m <> "web" -> pidFiles w0 !! m = pidFiles Demo.after_restart !! m)
    /\ out = match restart_on_fail Demo.web with
             | Some true =>
                 startProcess Demo.commands ∅ ∅ "web" false
                   (emit (ConsoleLog (Restarting "web")) w0)
             | _ => (Ok tt, w0)
             end.
Proof.
  apply (C9_exit_removes_record_by_name Demo.commands ∅ ∅ Demo.first_child
           100%positive 101%positive None (Some "SIGTERM") Demo.after_restart).
  - reflexivity.
  - vm_compute. reflexivity.
  - lia.
  - vm_compute. reflexivity.
Defined.

(** The scenario of C9, run: start, restart, then the first child's exit. *)
Example stale_exit_deletes_fresh_record :
  childProcesses Demo.after_start !! "web" = Some Demo.first_child
  /\ pidFiles Demo.after_restart !! "web" = Some 101%positive
  /\ pidFiles (emit_exit Demo.commands ∅ ∅ Demo.first_child None (Some "SIGTERM")
                 Demo.after_restart).2 !! "web" = None
  /\ os_procs (emit_exit Demo.commands ∅ ∅ Demo.first_child None (Some "SIGTERM")
                 Demo.after_restart).2 !! 101%positive = Some true.
Proof. vm_compute. repeat split; reflexivity. Qed.

(** ** C3: the environment that inspect reports *)

Lemma inspectProcess_spec (commandsConfig : list (string * CommandConfig))
    (defaultEnv : Env.t) (n : string) (def : CommandConfig) (w : World) :
  lookup_command commandsConfig n = Some def ->
  inspectProcess commandsConfig defaultEnv n w =
  let live := match pidFiles w !! n with
              | Some p => if bool_decide (os_procs w !! p = Some true)
                          then Some p else None
              | None => None
              end in
  (Ok tt,
   emit (ConsoleLog (Inspection
           {| i_name := n; i_running := bool_decide (is_Some live);
              i_pid := live; i_config := def; i_globalEnv := defaultEnv;
              i_combinedEnv := Env.spread2 defaultEnv (default ∅ (env def)) |}))
     (set_pidFiles (match live with
                    | Some _ => fun m => m
                    | None => delete n
                    end) w)).
Proof.
  intros L. unfold inspectProcess. rewrite L. cbv zeta.
  destruct (pidFiles w !! n) as [p|] eqn:H.
  - destruct (os_procs w !! p) as [[]|] eqn:E; run_with H E;
      reflexivity.
  - rewrite (set_pidFiles_id n w H). run_with H. reflexivity.
Qed.

(** The system environment does not reach the snapshot: with [HOME] set in
    [process.env] only, the merged environment that [inspectProcess] prints
    has no [HOME]. *)
Lemma C3_counterexample :
  ~ (forall (commandsConfig : list (string * CommandConfig))
            (defaultEnv process_env : Env.t) (n : string) (def : CommandConfig)
            (w : World) (k v : string),
       lookup_command commandsConfig n = Some def ->
       process_env !! k = Some v ->
       defaultEnv !! k = None ->
       default ∅ (env def) !! k = None ->
       exists d,
         last_inspection (inspectProcess commandsConfig defaultEnv n w).2 = Some d
         /\ i_combinedEnv d !! k = Some v).
Proof.
  intros claim.
  destruct (claim Demo.commands ∅ {[ "HOME" := "/root" ]} "web" Demo.web
              Demo.idle "HOME" "/root")
    as (d & Hd & Hk); try (vm_compute; reflexivity).
  vm_compute in Hd. injection Hd as <-. vm_compute in Hk. discriminate.
Qed.

(** C3, amended. For every configured name [n], [inspectProcess n] returns
    normally and prints a snapshot with the name, the definition, the global
    environment, and as merged environment the global environment
    overridden by the process-level [env]: a variable is reported exactly
    when one of these two layers defines it, with the value that
    [startProcess] would use. The system environment is not part of it. *)
Theorem C3_inspect_merges_two_layers (commandsConfig : list (string * CommandConfig))
    (defaultEnv : Env.t) (n : string) (def : CommandConfig) (w : World) :
  lookup_command commandsConfig n = Some def ->
  let out := inspectProcess commandsConfig defaultEnv n w in
  out.1 = Ok tt
  /\ exists d,
       last_inspection out.2 = Some d
       /\ i_name d = n
       /\ i_config d = def
       /\ i_globalEnv d = defaultEnv
       /\ i_combinedEnv d = Env.spread2 defaultEnv (default ∅ (env def))
       /\ (forall k,
             i_combinedEnv d !! k =
             match default ∅ (env def) !! k with
             | Some v => Some v
             | None => defaultEnv !! k
             end)
       /\ (forall (process_env : Env.t) k,
             is_Some (i_combinedEnv d !! k) ->
             Env.spread3 process_env defaultEnv (default ∅ (env def)) !! k
             = i_combinedEnv d !! k).
Proof.
  intros L. cbv zeta. rewrite (inspectProcess_spec _ _ n def w L). cbv zeta.
  split; [reflexivity|]. eexists. split; [reflexivity|]. cbn.
  repeat split.
  - intros k. apply spread2_lookup.
  - intros sys k. rewrite spread3_lookup, spread2_lookup.
    destruct (default ∅ (env def) !! k); [reflexivity|].
    destruct (defaultEnv !! k); [reflexivity|]. intros [v Hv]. discriminate.
Qed.

Lemma C3_witness :
  let out := inspectProcess Demo.commands Demo.globalEnv "web" Demo.idle in
  out.1 = Ok tt
  /\ exists d,
       last_inspection out.2 = Some d
       /\ i_name d = "web"
       /\ i_config d = Demo.web
       /\ i_globalEnv d = Demo.globalEnv
       /\ i_combinedEnv d = Env.spread2 Demo.globalEnv (default ∅ (env Demo.web))
       /\ (forall k,
             i_combinedEnv d !! k =
             match default ∅ (env Demo.web) !! k with
             | Some v => Some v
             | None => Demo.globalEnv !! k
             end)
       /\ (forall (process_env : Env.t) k,
             is_Some (i_combinedEnv d !! k) ->
             Env.spread3 process_env Demo.globalEnv (default ∅ (env Demo.web)) !! k
             = i_combinedEnv d !! k).
Proof.
  apply (C3_inspect_merges_two_layers Demo.commands Demo.globalEnv "web" Demo.web
           Demo.idle).
  reflexivity.
Defined.

(** ** C5: layering and substitution *)


Example inherited_names_are_substituted :
  Template.substitute Demo.globalEnv "${constructor}|${__proto__}|${valueOf}|${C}"
  = "function Object() { [native code] }|[object Object]|function valueOf() { [native code] }|".
Proof. vm_compute. reflexivity. Qed.



(** ** C1: what the interrupt handler stops *)

Lemma for_of_stop_os_procs (names : list string) (w : World) :
  os_procs (for_of names stopProcess w).2 = os_procs w.
Proof.
  revert w. induction names as [|a names IH]; intros w; [reflexivity|].
  rewrite for_of_stop_cons, IH. apply stopProcess_os_procs.
Qed.

(** A batch stop never creates a record. *)
Lemma for_of_stop_pidFiles_sub (names : list string) (m : string) (p : pid)
    (w : World) :
  pidFiles (for_of names stopProcess w).2 !! m = Some p -> pidFiles w !! m = Some p.
Proof.
  revert w. induction names as [|a names IH]; intros w; [auto|].
  rewrite for_of_stop_cons. intros H%IH. eapply stopProcess_pidFiles_sub; eauto.
Qed.

Lemma for_of_stop_pidFiles_absent (names : list string) (m : string) (w : World) :
  pidFiles w !! m = None -> pidFiles (for_of names stopProcess w).2 !! m = None.
Proof.
  intros H. destruct (pidFiles (for_of names stopProcess w).2 !! m) as [p|] eqn:E;
    [|reflexivity].
  apply for_of_stop_pidFiles_sub in E. congruence.
Qed.

(** Names outside the batch keep their record and their child entry. *)
Lemma for_of_stop_frame (names : list string) (m : string) (w : World) :
  m ∉ names ->
  pidFiles (for_of names stopProcess w).2 !! m = pidFiles w !! m
  /\ childProcesses (for_of names stopProcess w).2 !! m = childProcesses w !! m.
Proof.
  revert w. induction names as [|a names IH]; intros w Hm; [auto|].
  apply not_elem_of_cons in Hm as [Hne Hm].
  rewrite for_of_stop_cons. destruct (IH (stopProcess a w).2 Hm) as [-> ->].
  split.
  - now apply stopProcess_pidFiles_other.
  - now apply stopProcess_childProcesses_other.
Qed.

(** Names without a record keep their child entry. *)
Lemma for_of_stop_childProcesses_absent (names : list string) (m : string)
    (w : World) :
  pidFiles w !! m = None ->
  childProcesses (for_of names stopProcess w).2 !! m = childProcesses w !! m.
Proof.
  revert w. induction names as [|a names IH]; intros w H; [reflexivity|].
  rewrite for_of_stop_cons, IH.
  - now apply stopProcess_childProcesses_absent.
  - destruct (pidFiles (stopProcess a w).2 !! m) as [p|] eqn:E; [|reflexivity].
    apply stopProcess_pidFiles_sub in E. congruence.
Qed.

(** The signals of a batch stop go to recorded pids of the batch's names. *)
Lemma for_of_stop_trace (names : list string) (w : World) :
  exists es, trace (for_of names stopProcess w).2 = (es ++ trace w)%list
    /\ forall q, SignalSent q SIGTERM ∈ es ->
         exists m, m ∈ names /\ pidFiles w !! m = Some q
                   /\ os_procs w !! q = Some true.
Proof.
  revert w. induction names as [|a names IH]; intros w.
  - exists []. split; [reflexivity|]. intros q Hq. inversion Hq.
  - rewrite for_of_stop_cons.
    destruct (stopProcess_trace a w) as (es1 & E1 & S1).
    destruct (IH (stopProcess a w).2) as (es2 & E2 & S2).
    exists (es2 ++ es1)%list. split.
    + rewrite E2, E1. now rewrite app_assoc.
    + intros q [Hq|Hq]%elem_of_app.
      * destruct (S2 q Hq) as (m & Hm & Hp & Ho).
        exists m. split; [now right|]. split.
        -- eapply stopProcess_pidFiles_sub; eauto.
        -- now rewrite <- (stopProcess_os_procs a w).
      * destruct (S1 q Hq) as [Hp Ho]. exists a. split; [now left | auto].
Qed.

(** A recorded, signalable name of the batch is signalled and loses its
    record, whether or not [childProcesses] holds it. *)
Lemma for_of_stop_hits (names : list string) (m : string) (p : pid) (w : World) :
  m ∈ names ->
  pidFiles w !! m = Some p ->
  os_procs w !! p = Some true ->
  pidFiles (for_of names stopProcess w).2 !! m = None
  /\ terminated p (for_of names stopProcess w).2.
Proof.
  revert w. induction names as [|a names IH]; intros w Hm Hp Ho.
  - inversion Hm.
  - rewrite for_of_stop_cons.
    destruct (decide (m = a)) as [->|Hne].
    + assert (pidFiles (stopProcess a w).2 !! a = None
              /\ terminated p (stopProcess a w).2) as [Hgone Hsig].
      { rewrite stopProcess_spec. cbn [snd]. rewrite Hp, Ho. unfold terminated.
        destruct (childProcesses w !! a); cbn;
          (split; [apply lookup_delete_eq | in_list]). }
      split.
      * now apply for_of_stop_pidFiles_absent.
      * unfold terminated in *.
        destruct (for_of_stop_trace names (stopProcess a w).2) as (es & -> & _).
        apply elem_of_app. now right.
    + apply IH.
      * apply elem_of_cons in Hm as [?|?]; [contradiction | assumption].
      * now rewrite stopProcess_pidFiles_other.
      * now rewrite stopProcess_os_procs.
Qed.

(** Stop never adds a child entry. *)
Lemma stopProcess_childProcesses_sub (n m : string) (c : ChildProcess) (w : World) :
  childProcesses (stopProcess n w).2 !! m = Some c -> childProcesses w !! m = Some c.
Proof.
  rewrite stopProcess_spec; cbn.
  destruct (pidFiles w !! n) as [p|]; [|auto].
  destruct (os_procs w !! p) as [[]|]; auto.
  destruct (childProcesses w !! n); cbn; [|auto].
  intros L. apply lookup_delete_Some in L. tauto.
Qed.

Lemma for_of_stop_childProcesses_sub (names : list string) (m : string)
    (c : ChildProcess) (w : World) :
  childProcesses (for_of names stopProcess w).2 !! m = Some c ->
  childProcesses w !! m = Some c.
Proof.
  revert w. induction names as [|a names IH]; intros w; [auto|].
  rewrite for_of_stop_cons. intros H%IH.
  eapply stopProcess_childProcesses_sub; eauto.
Qed.

(** The child objects that Stop signals. *)
Lemma stopProcess_childKill (n : string) (c : ChildProcess) (s : signal) (w : World) :
  ChildKill c s ∈ trace (stopProcess n w).2 ->
  ChildKill c s ∈ trace w
  \/ exists p, pidFiles w !! n = Some p /\ os_procs w !! p = Some true
               /\ childProcesses w !! n = Some c.
Proof.
  rewrite stopProcess_spec; cbn.
  destruct (pidFiles w !! n) as [p|] eqn:H.
  - destruct (os_procs w !! p) as [[]|] eqn:E.
    + destruct (childProcesses w !! n) as [c'|] eqn:Hc; cbn; intros Hin;
        repeat (apply elem_of_cons in Hin as [Hin|Hin];
                [try discriminate|]); auto.
      injection Hin as -> ->. right. eauto.
    + cbn. intros [Hin|Hin]%elem_of_cons; [discriminate | auto].
    + cbn. intros [Hin|Hin]%elem_of_cons; [discriminate | auto].
  - cbn. intros [Hin|Hin]%elem_of_cons; [discriminate | auto].
Qed.

Lemma for_of_stop_childKill (names : list string) (c : ChildProcess) (s : signal)
    (w : World) :
  ChildKill c s ∈ trace (for_of names stopProcess w).2 ->
  ChildKill c s ∈ trace w
  \/ exists m p, m ∈ names /\ pidFiles w !! m = Some p
                 /\ os_procs w !! p = Some true
                 /\ childProcesses w !! m = Some c.
Proof.
  revert w. induction names as [|a names IH]; intros w; [auto|].
  rewrite for_of_stop_cons. intros [Hin|(m & p & Hm & Hp & Ho & Hc)]%IH.
  - apply stopProcess_childKill in Hin as [Hin|(p & Hp & Ho & Hc)]; [auto|].
    right. exists a, p. split; [apply list_elem_of_here | auto].
  - right. exists m, p. split; [now apply list_elem_of_further|]. split; [|split].
    + eapply stopProcess_pidFiles_sub; eauto.
    + now rewrite <- (stopProcess_os_procs a w).
    + eapply stopProcess_childProcesses_sub; eauto.
Qed.

(** A recorded, signalable name of the batch loses its child entry, and a
    child object held for it is signalled. *)
Lemma for_of_stop_hits_child (names : list string) (m : string) (p : pid)
    (w : World) :
  m ∈ names ->
  pidFiles w !! m = Some p ->
  os_procs w !! p = Some true ->
  childProcesses (for_of names stopProcess w).2 !! m = None
  /\ (forall c, childProcesses w !! m = Some c ->
        ChildKill c SIGTERM ∈ trace (for_of names stopProcess w).2).
Proof.
  revert w. induction names as [|a names IH]; intros w Hm Hp Ho.
  - inversion Hm.
  - rewrite for_of_stop_cons.
    destruct (decide (m = a)) as [->|Hne].
    + assert (childProcesses (stopProcess a w).2 !! a = None
              /\ (forall c, childProcesses w !! a = Some c ->
                    ChildKill c SIGTERM ∈ trace (stopProcess a w).2)) as [Hgone Hsig].
      { rewrite stopProcess_spec. cbn [snd]. rewrite Hp, Ho.
        destruct (childProcesses w !! a) as [c'|] eqn:Hc; cbn.
        - split; [apply lookup_delete_eq|]. intros c [= <-]. in_list.
        - split; [exact Hc | discriminate]. }
      split.
      * destruct (childProcesses (for_of names stopProcess (stopProcess a w).2).2 !! a)
          as [c|] eqn:E; [|reflexivity].
        apply for_of_stop_childProcesses_sub in E. congruence.
      * intros c Hc.
        destruct (for_of_stop_trace names (stopProcess a w).2) as (es & -> & _).
        apply elem_of_app. right. auto.
    + destruct (IH (stopProcess a w).2) as [Hgone Hsig].
      * apply elem_of_cons in Hm as [?|?]; [contradiction | assumption].
      * now rewrite stopProcess_pidFiles_other.
      * now rewrite stopProcess_os_procs.
      * split; [exact Hgone|]. intros c Hc. apply Hsig.
        now rewrite stopProcess_childProcesses_other.
Qed.

Lemma sigintHandler_spec (commandsConfig : list (string * CommandConfig)) (w : World) :
  sigintHandler commandsConfig w =
  (Ok tt,
   emit ProcessExit
     (for_of (Object_keys commandsConfig) stopProcess
        (emit (ConsoleLog ShuttingDown) w)).2).
Proof.
  unfold sigintHandler, stopProcesses, selected.
  rewrite bind_run. unfold console_log at 1, modify at 1.
  rewrite bind_run.
  rewrite (surjective_pairing (for_of _ stopProcess _)), for_of_stop_ok.
  reflexivity.
Qed.

(** The handler signals a process that this invocation never spawned:
    "web" was started by an earlier detached invocation as pid 42 and
    [childProcesses] is empty, yet "web.pid" is gone after the handler. *)
Lemma C1_counterexample :
  ~ (forall (commandsConfig : list (string * CommandConfig)) (w : World)
            (n : string),
       childProcesses w !! n = None ->
       pidFiles (sigintHandler commandsConfig w).2 !! n = pidFiles w !! n).
Proof.
  intros claim.
  specialize (claim Demo.commands Demo.started_elsewhere "web" eq_refl).
  vm_compute in claim. discriminate.
Qed.

Example sigint_signals_unheld_process :
  childProcesses Demo.started_elsewhere = ∅
  /\ trace (sigintHandler Demo.commands Demo.started_elsewhere).2
     = [ProcessExit; ConsoleLog (NoPidFile "worker");
        ConsoleLog (Stopped "web" 42%positive); SignalSent 42%positive SIGTERM;
        ConsoleLog ShuttingDown].
Proof. split; vm_compute; reflexivity. Qed.

(** C1, amended. On SIGINT the handler runs Stop over the configured names,
    not over the held ones: it returns normally and ends the process; every
    configured name whose pid file names a signalable pid is sent SIGTERM
    and loses its pid file and its [childProcesses] entry, whether or not
    [childProcesses] holds it, and a child object held for it is signalled
    too; every SIGTERM sent by pid goes to the recorded pid of a configured
    name, and every child object signalled is the one held for a configured
    name whose recorded pid accepted the signal; a name outside the
    configuration, and a name without a pid file, keep their pid file state
    and their [childProcesses] entry. *)
Theorem C1_sigint_stops_configured_names
    (commandsConfig : list (string * CommandConfig)) (w : World) :
  let out := sigintHandler commandsConfig w in
  out.1 = Ok tt
  /\ head (trace out.2) = Some ProcessExit
  /\ (forall n p,
        n ∈ Object_keys commandsConfig ->
        pidFiles w !! n = Some p ->
        os_procs w !! p = Some true ->
        pidFiles out.2 !! n = None
        /\ terminated p out.2
        /\ childProcesses out.2 !! n = None
        /\ (forall c, childProcesses w !! n = Some c ->
              ChildKill c SIGTERM ∈ trace out.2))
  /\ (forall q,
        terminated q out.2 ->
        terminated q w
        \/ exists n, n ∈ Object_keys commandsConfig /\ pidFiles w !! n = Some q)
  /\ (forall c s,
        ChildKill c s ∈ trace out.2 ->
        ChildKill c s ∈ trace w
        \/ exists n p, n ∈ Object_keys commandsConfig
                       /\ pidFiles w !! n = Some p
                       /\ os_procs w !! p = Some true
                       /\ childProcesses w !! n = Some c)
  /\ (forall n,
        n ∉ Object_keys commandsConfig ->
        pidFiles out.2 !! n = pidFiles w !! n
        /\ childProcesses out.2 !! n = childProcesses w !! n)
  /\ (forall n,
        pidFiles w !! n = None ->
        pidFiles out.2 !! n = None
        /\ childProcesses out.2 !! n = childProcesses w !! n).
Proof.
  cbv zeta. rewrite sigintHandler_spec. cbn [fst snd].
  set (w0 := emit (ConsoleLog ShuttingDown) w).
  set (keys := Object_keys commandsConfig).
  split; [reflexivity|]. split; [reflexivity|].
  split; [|split; [|split; [|split]]].
  - intros n p Hn Hp Ho.
    destruct (for_of_stop_hits keys n p w0 Hn Hp Ho) as [Hgone Hsig].
    destruct (for_of_stop_hits_child keys n p w0 Hn Hp Ho) as [Hcgone Hkill].
    split; [exact Hgone|]. split; [|split; [exact Hcgone|]].
    + unfold terminated in *. cbn. now right.
    + intros c Hc. cbn. right. now apply Hkill.
  - intros q Hq. unfold terminated in *. cbn in Hq.
    apply elem_of_cons in Hq as [Hq|Hq]; [discriminate|].
    destruct (for_of_stop_trace keys w0) as (es & E & S).
    rewrite E in Hq. apply elem_of_app in Hq as [Hq|Hq].
    + destruct (S q Hq) as (m & Hm & Hp & _). right. exists m. auto.
    + cbn in Hq. apply elem_of_cons in Hq as [Hq|Hq]; [discriminate | now left].
  - intros c s Hin. cbn in Hin.
    apply elem_of_cons in Hin as [Hin|Hin]; [discriminate|].
    apply for_of_stop_childKill in Hin as [Hin|Hex]; [|now right].
    cbn in Hin. apply elem_of_cons in Hin as [Hin|Hin]; [discriminate | now left].
  - intros n Hn. exact (for_of_stop_frame keys n w0 Hn).
  - intros n Hn. split.
    + now apply (for_of_stop_pidFiles_absent keys n w0).
    + now apply (for_of_stop_childProcesses_absent keys n w0).
Qed.

(** The handler signals the recorded pid and, through its child object,
    the pid of the held child, which no pid file records. *)
Example sigint_signals_record_and_child :
  trace (sigintHandler Demo.commands Samples.record_differs_from_child).2
  = [ProcessExit; ConsoleLog (NoPidFile "worker");
     ChildKill Demo.first_child SIGTERM;
     ConsoleLog (Stopped "web" 42%positive); SignalSent 42%positive SIGTERM;
     ConsoleLog ShuttingDown]
  /\ child_pid Demo.first_child = Some 100%positive.
Proof. split; vm_compute; reflexivity. Qed.

Lemma C1_witness :
  pidFiles (sigintHandler Demo.commands Demo.after_start).2 !! "web" = None
  /\ terminated 100%positive (sigintHandler Demo.commands Demo.after_start).2
  /\ childProcesses (sigintHandler Demo.commands Demo.after_start).2 !! "web" = None
  /\ (forall c, childProcesses Demo.after_start !! "web" = Some c ->
        ChildKill c SIGTERM ∈ trace (sigintHandler Demo.commands Demo.after_start).2).
Proof.
  apply (proj1 (proj2 (proj2
           (C1_sigint_stops_configured_names Demo.commands Demo.after_start)))).
  - left.
  - vm_compute. reflexivity.
  - vm_compute. reflexivity.
Defined.


(** * Further properties *)

(** ** Substitution outside well-formed placeholders *)

Module TemplateEdges.
Import Template TemplateFacts.

Local Arguments String.append : simpl nomatch.

Lemma append_empty_r (a : string) : (a ++ "" = a)%string.
Proof. induction a as [|x a IH]; simpl; [reflexivity | now rewrite IH]. Qed.

Lemma match_here_not_dollar (c : ascii) (s : string) :
  Ascii.eqb c "$" = false -> match_here (String c s) = None.
Proof.
  intros Hc. rewrite match_here_unfold. destruct s; [reflexivity|].
  now rewrite Hc.
Qed.

Lemma word_char_not_dollar (c : ascii) :
  is_word_char c = true -> Ascii.eqb c "$" = false.
Proof.
  destruct (Ascii.eqb_spec c "$") as [->|]; [discriminate | reflexivity].
Qed.

Lemma all_word_no_dollar (v : string) :
  all_word v = true -> contains_char "$" v = false.
Proof.
  induction v as [|c v IH]; simpl; [reflexivity|].
  intros [Hc Hv]%andb_prop. now rewrite (word_char_not_dollar c Hc), IH.
Qed.

Lemma replace_from_copy (f : string -> string) (w t : string) :
  contains_char "$" w = false ->
  replace_from f 0 (w ++ t) = (w ++ replace_from f 0 t)%string.
Proof.
  induction w as [|c w IH]; [reflexivity|].
  cbn [contains_char]. intros [Hc Hw]%orb_false_elim.
  change (String c w ++ t)%string with (String c (w ++ t)).
  cbn [replace_from]. rewrite (match_here_not_dollar c _ Hc).
  now rewrite (IH Hw).
Qed.

(** X1. Text before the first [$] is copied as it is; so an argument without
    [$] is passed to [spawn] unchanged. *)
Theorem text_without_dollar_is_copied (envVars : Env.t) (w t : string) :
  contains_char "$" w = false ->
  substitute envVars (w ++ t) = (w ++ substitute envVars t)%string
  /\ substitute envVars w = w.
Proof.
  intros Hw. unfold substitute, replace_all. split.
  - now apply replace_from_copy.
  - pose proof (replace_from_copy (Env.get_or_empty envVars) w "" Hw) as E.
    rewrite append_empty_r in E. cbn [replace_from] in E.
    now rewrite append_empty_r in E.
Qed.

Lemma match_here_malformed (v rest : string) (c : ascii) :
  all_word v = true ->
  is_word_char c = false ->
  v = "" \/ c <> "}"%char ->
  match_here ("${" ++ v ++ String c rest) = None.
Proof.
  intros Hv Hc Hbad. rewrite match_here_unfold. simpl.
  rewrite span_word_app by exact Hc. rewrite (span_word_all v Hv). simpl.
  destruct v as [|c0 v']; [reflexivity|].
  destruct Hbad as [?|Hne]; [discriminate|].
  destruct (Ascii.eqb_spec c "}"); [contradiction | reflexivity].
Qed.

Lemma match_here_unterminated (v : string) :
  all_word v = true -> match_here ("${" ++ v) = None.
Proof.
  intros Hv. rewrite match_here_unfold. simpl.
  rewrite (span_word_all v Hv). now destruct v.
Qed.

(** X2. A [${] that is not followed by a name and a closing brace is no
    placeholder and stays in the argument: the empty [${}], a name cut by
    another character as in [${A-B}], and a name that runs to the end. *)
Theorem malformed_placeholder_is_copied (envVars : Env.t) (v rest : string)
    (c : ascii) :
  all_word v = true ->
  is_word_char c = false ->
  v = "" \/ c <> "}"%char ->
  substitute envVars ("${" ++ v ++ String c rest)
  = ("${" ++ v ++ substitute envVars (String c rest))%string
  /\ substitute envVars ("${" ++ v) = ("${" ++ v)%string.
Proof.
  intros Hv Hc Hbad. unfold substitute, replace_all.
  set (f := Env.get_or_empty envVars).
  assert (contains_char "$" ("{" ++ v) = false) as Hcopy.
  { simpl. now apply all_word_no_dollar. }
  split.
  - change ("${" ++ v ++ String c rest)%string
      with (String "$" (("{" ++ v) ++ String c rest)).
    cbn [replace_from].
    change (String "$" (("{" ++ v) ++ String c rest))
      with ("${" ++ v ++ String c rest)%string.
    rewrite (match_here_malformed v rest c Hv Hc Hbad).
    now rewrite (replace_from_copy f _ _ Hcopy).
  - change ("${" ++ v)%string with (String "$" ("{" ++ v)).
    cbn [replace_from].
    change (String "$" ("{" ++ v)) with ("${" ++ v)%string.
    rewrite (match_here_unterminated v Hv).
    pose proof (replace_from_copy f ("{" ++ v) "" Hcopy) as E.
    rewrite append_empty_r in E. cbn [replace_from] in E.
    rewrite append_empty_r in E. now rewrite E.
Qed.

End TemplateEdges.

Lemma text_without_dollar_witness :
  Template.substitute Demo.globalEnv ("--port=" ++ "${B}")
  = ("--port=" ++ Template.substitute Demo.globalEnv "${B}")%string
  /\ Template.substitute Demo.globalEnv "--port=" = "--port=".
Proof.
  apply (TemplateEdges.text_without_dollar_is_copied Demo.globalEnv "--port=" "${B}").
  reflexivity.
Defined.

Lemma malformed_placeholder_witness :
  Template.substitute Demo.globalEnv ("${" ++ "A" ++ String "-" "B}")
  = ("${" ++ "A" ++ Template.substitute Demo.globalEnv (String "-" "B}"))%string
  /\ Template.substitute Demo.globalEnv ("${" ++ "A") = ("${" ++ "A")%string.
Proof.
  apply (TemplateEdges.malformed_placeholder_is_copied Demo.globalEnv "A" "B}" "-").
  - reflexivity.
  - reflexivity.
  - right. intros H. discriminate H.
Defined.

(** ** Liveness checks *)

Lemma isProcessRunning_live (n : string) (w : World) :
  isProcessRunning n w =
  match live_pid w n with
  | Some _ => (Ok true, w)
  | None => (Ok false, set_pidFiles (delete n) w)
  end.
Proof.
  rewrite isProcessRunning_spec. unfold live_pid.
  destruct (pidFiles w !! n) as [p|] eqn:H.
  - case_bool_decide; reflexivity.
  - now rewrite set_pidFiles_id.
Qed.

Lemma live_pid_recorded (n : string) (p : pid) (w : World) :
  live_pid w n = Some p -> pidFiles w !! n = Some p /\ os_procs w !! p = Some true.
Proof.
  unfold live_pid. destruct (pidFiles w !! n) as [q|]; [|discriminate].
  case_bool_decide; [|discriminate]. intros [= ->]. auto.
Qed.

(** X3. [isProcessRunning n] never throws. It answers true exactly when the pid
    file of [n] names a process that accepts signal 0, and then changes
    nothing. Otherwise the only change is that the pid file of [n] is gone.
    Either way the pid file of [n] afterwards is exactly the live pid, and
    no other pid file, child entry, process or output is touched. *)
Theorem liveness_check_only_heals (n : string) (w : World) :
  let out := isProcessRunning n w in
  out.1 = Ok (bool_decide (is_Some (live_pid w n)))
  /\ (is_Some (live_pid w n) -> out.2 = w)
  /\ pidFiles out.2 !! n = live_pid w n
  /\ (forall m, m <> n -> pidFiles out.2 !! m = pidFiles w !! m)
  /\ childProcesses out.2 = childProcesses w
  /\ os_procs out.2 = os_procs w
  /\ spawned out.2 = spawned w
  /\ trace out.2 = trace w.
Proof.
  cbv zeta. rewrite isProcessRunning_live.
  destruct (live_pid w n) as [p|] eqn:L; cbn.
  - apply live_pid_recorded in L as [H _].
    repeat split; auto.
  - repeat split; auto.
    + intros [? ?]. discriminate.
    + apply lookup_delete_eq.
    + intros m Hm. now apply lookup_delete_ne.
Qed.

Section MoreStart.

Variable commandsConfig : list (string * CommandConfig).
Variables defaultEnv process_env : Env.t.

Local Abbreviation start := (startProcess commandsConfig defaultEnv process_env).
Local Abbreviation lookup_cmd := (lookup_command commandsConfig).
Local Abbreviation on_exit := (exitListener commandsConfig defaultEnv process_env).
Local Abbreviation restart := (restartProcesses commandsConfig defaultEnv process_env).

(** The state after a start that goes through to [spawn]. *)
Lemma startProcess_spawn_world (n : string) (def : CommandConfig) (detach : bool)
    (w : World) :
  lookup_cmd n = Some def ->
  childProcesses w !! n = None ->
  live_pid w n = None ->
  let r := os_spawn w (spawned w) in
  let envVars := Env.spread3 process_env defaultEnv (default ∅ (env def)) in
  let argv := Template.substitute envVars <$> default [] (args def) in
  let child := {| child_pid := r; listener_name := n;
                  listener_detach := detach; listener_cmdConfig := def |} in
  let out := start n detach w in
  out.1 = Ok tt
  /\ pidFiles out.2 = match r with
                      | Some p => <[n := p]> (delete n (pidFiles w))
                      | None => delete n (pidFiles w)
                      end
  /\ childProcesses out.2 = <[n := child]> (childProcesses w)
  /\ os_procs out.2 = match r with
                      | Some p => <[p := true]> (os_procs w)
                      | None => os_procs w
                      end
  /\ spawned out.2 = S (spawned w)
  /\ os_spawn out.2 = os_spawn w
  /\ trace out.2
     = ((if detach then [Unref child] else [])
        ++ match r with
           | Some p => ConsoleLog (Started n p)
           | None => ConsoleError (FailedToStart n)
           end
        :: Spawn (command def) argv envVars detach r
        :: OpenLog n :: OpenLog n :: trace w)%list.
Proof.
  intros L Hc Hl. cbv zeta.
  assert ((isProcessRunning n w).1 = Ok false) as Hr.
  { rewrite isProcessRunning_live, Hl. reflexivity. }
  rewrite (startProcess_heals _ _ _ n def detach w L Hc Hr).
  rewrite (startProcess_fresh _ _ _ n def detach (set_pidFiles (delete n) w) L Hc)
    by (cbn; apply lookup_delete_eq).
  cbn [fst snd set_pidFiles os_spawn spawned].
  destruct (os_spawn w (spawned w)) as [p|], detach; cbn; repeat split.
Qed.

(** Every way a start can go. *)
Lemma startProcess_cases (n : string) (detach : bool) (w : World) :
  (lookup_cmd n = None
   /\ start n detach w = (Ok tt, emit (ConsoleError (CommandNotFound n)) w))
  \/ (exists def, lookup_cmd n = Some def
      /\ (is_Some (childProcesses w !! n) \/ is_Some (live_pid w n))
      /\ start n detach w = (Ok tt, emit (ConsoleLog (AlreadyRunning n)) w))
  \/ (exists def, lookup_cmd n = Some def
      /\ childProcesses w !! n = None /\ live_pid w n = None).
Proof.
  destruct (lookup_cmd n) as [def|] eqn:L.
  - right. destruct (childProcesses w !! n) as [c|] eqn:Hc.
    + left. exists def. split; [reflexivity|]. split; [left; eauto|].
      eapply startProcess_held; eauto.
    + destruct (live_pid w n) as [p|] eqn:Hl.
      * left. exists def. split; [reflexivity|]. split; [right; eauto|].
        apply live_pid_recorded in Hl as [H E].
        eapply startProcess_live; eauto.
      * right. exists def. auto.
  - left. split; [reflexivity|]. now apply startProcess_not_found.
Qed.

Lemma startProcess_ok (n : string) (detach : bool) (w : World) :
  (start n detach w).1 = Ok tt.
Proof.
  destruct (startProcess_cases n detach w)
    as [[_ E]|[(def & _ & _ & E)|(def & L & Hc & Hl)]];
    try (rewrite E; reflexivity).
  apply (startProcess_spawn_world n def detach w L Hc Hl).
Qed.

(** X5. [startProcess n] never sends a signal, neither by pid nor through a
    child object, and touches the pid file and the child entry of no other
    name. *)
Theorem start_touches_only_its_name (n : string) (detach : bool) (w : World) :
  let out := start n detach w in
  (forall m, m <> n ->
     pidFiles out.2 !! m = pidFiles w !! m
     /\ childProcesses out.2 !! m = childProcesses w !! m)
  /\ (forall q, terminated q out.2 -> terminated q w)
  /\ (forall c s, ChildKill c s ∈ trace out.2 -> ChildKill c s ∈ trace w).
Proof.
  cbv zeta.
  destruct (startProcess_cases n detach w)
    as [[_ E]|[(def & _ & _ & E)|(def & L & Hc & Hl)]].
  - rewrite E. unfold terminated. cbn. split; [auto|]. split.
    + intros q [Hq|Hq]%elem_of_cons; [discriminate | exact Hq].
    + intros c s [Hq|Hq]%elem_of_cons; [discriminate | exact Hq].
  - rewrite E. unfold terminated. cbn. split; [auto|]. split.
    + intros q [Hq|Hq]%elem_of_cons; [discriminate | exact Hq].
    + intros c s [Hq|Hq]%elem_of_cons; [discriminate | exact Hq].
  - destruct (startProcess_spawn_world n def detach w L Hc Hl)
      as (_ & Hpf & Hcp & _ & _ & _ & Htr).
    split; [|split].
    + intros m Hm. rewrite Hpf, Hcp. split.
      * destruct (os_spawn w (spawned w));
          rewrite ?lookup_insert_ne by congruence; now apply lookup_delete_ne.
      * now rewrite lookup_insert_ne by congruence.
    + intros q. unfold terminated. rewrite Htr.
      intros [Hq|Hq]%elem_of_app.
      * destruct detach; [|inversion Hq].
        apply elem_of_cons in Hq as [Hq|Hq]; [discriminate | inversion Hq].
      * repeat (apply elem_of_cons in Hq as [Hq|Hq];
                [destruct (os_spawn w (spawned w)); discriminate|]).
        exact Hq.
    + intros c s. rewrite Htr.
      intros [Hq|Hq]%elem_of_app.
      * destruct detach; [|inversion Hq].
        apply elem_of_cons in Hq as [Hq|Hq]; [discriminate | inversion Hq].
      * repeat (apply elem_of_cons in Hq as [Hq|Hq];
                [destruct (os_spawn w (spawned w)); discriminate|]).
        exact Hq.
Qed.



End MoreStart.

(** ** Stop, restart and exit *)


Lemma stopProcess_signalled (n : string) (p : pid) (w : World) :
  pidFiles w !! n = Some p ->
  os_procs w !! p = Some true ->
  let out := stopProcess n w in
  out.1 = Ok tt
  /\ terminated p out.2
  /\ pidFiles out.2 !! n = None
  /\ childProcesses out.2 !! n = None
  /\ (forall c, childProcesses w !! n = Some c -> ChildKill c SIGTERM ∈ trace out.2)
  /\ (forall m, m <> n ->
        pidFiles out.2 !! m = pidFiles w !! m
        /\ childProcesses out.2 !! m = childProcesses w !! m)
  /\ os_procs out.2 = os_procs w
  /\ stopProcess n out.2 = (Ok tt, emit (ConsoleLog (NoPidFile n)) out.2).
Proof.
  intros H E. cbv zeta.
  assert (pidFiles (stopProcess n w).2 !! n = None) as Hgone.
  { rewrite stopProcess_spec. cbn [snd]. rewrite H, E.
    destruct (childProcesses w !! n); cbn; apply lookup_delete_eq. }
  split; [apply stopProcess_ok|].
  split; [|split; [exact Hgone|split; [|split; [|split; [|split]]]]].
  - rewrite stopProcess_spec. cbn [snd]. rewrite H, E. unfold terminated.
    destruct (childProcesses w !! n); cbn; in_list.
  - rewrite stopProcess_spec. cbn [snd]. rewrite H, E.
    destruct (childProcesses w !! n) eqn:Hc; cbn;
      [apply lookup_delete_eq | exact Hc].
  - intros c Hc. rewrite stopProcess_spec. cbn [snd]. rewrite H, E, Hc. cbn.
    in_list.
  - intros m Hm. split.
    + now apply stopProcess_pidFiles_other.
    + now apply stopProcess_childProcesses_other.
  - apply stopProcess_os_procs.
  - rewrite (stopProcess_spec n (stopProcess n w).2), Hgone. reflexivity.
Qed.

(** X8. A stop whose signal goes through: SIGTERM reaches the recorded pid, the
    pid file and the child entry of the name are gone, a held child object
    is signalled too, nothing of another name is touched, and the process
    itself is not waited for. A second stop then only reports that there is
    no pid file. *)
Theorem stop_signals_and_forgets (n : string) (p : pid) (w : World) :
  pidFiles w !! n = Some p ->
  os_procs w !! p = Some true ->
  let out := stopProcess n w in
  out.1 = Ok tt
  /\ terminated p out.2
  /\ pidFiles out.2 !! n = None
  /\ childProcesses out.2 !! n = None
  /\ (forall c, childProcesses w !! n = Some c -> ChildKill c SIGTERM ∈ trace out.2)
  /\ (forall m, m <> n ->
        pidFiles out.2 !! m = pidFiles w !! m
        /\ childProcesses out.2 !! m = childProcesses w !! m)
  /\ os_procs out.2 = os_procs w
  /\ stopProcess n out.2 = (Ok tt, emit (ConsoleLog (NoPidFile n)) out.2).
Proof. exact (stopProcess_signalled n p w). Qed.

Section MoreLifecycle.

Variable commandsConfig : list (string * CommandConfig).
Variables defaultEnv process_env : Env.t.

Local Abbreviation start := (startProcess commandsConfig defaultEnv process_env).
Local Abbreviation lookup_cmd := (lookup_command commandsConfig).
Local Abbreviation on_exit := (exitListener commandsConfig defaultEnv process_env).
Local Abbreviation restart := (restartProcesses commandsConfig defaultEnv process_env).


Lemma restart_one (n : string) (detach : bool) (w : World) :
  n <> "" ->
  restart (Some n) detach w = start n detach (stopProcess n w).2.
Proof.
  intros Hn. unfold restartProcesses, selected.
  destruct n as [|c n']; [congruence|].
  cbn [for_of]. rewrite !bind_run.
  rewrite (surjective_pairing (stopProcess _ w)), stopProcess_ok. cbn [snd].
  pose proof (startProcess_ok commandsConfig defaultEnv process_env (String c n') detach
                (stopProcess (String c n') w).2) as Hok.
  destruct (start (String c n') detach (stopProcess (String c n') w).2) as [r w2].
  cbn in Hok. subst r. reflexivity.
Qed.


(** X11. A child object that stays in [childProcesses] while the stop does not
    go through (no pid file, or a signal that fails) blocks the restart:
    stop reports, start reports "already running", nothing is spawned and
    the child object stays. *)
Theorem held_child_blocks_restart (n : string) (def : CommandConfig)
    (detach : bool) (c : ChildProcess) (w : World) :
  lookup_cmd n = Some def ->
  n <> "" ->
  childProcesses w !! n = Some c ->
  pidFiles w !! n = None
  \/ (exists p e, pidFiles w !! n = Some p /\ (process_kill p SIGTERM w).1 = Throw e) ->
  let out := restart (Some n) detach w in
  out.1 = Ok tt
  /\ head (trace out.2) = Some (ConsoleLog (AlreadyRunning n))
  /\ spawned out.2 = spawned w
  /\ pidFiles out.2 = pidFiles w
  /\ childProcesses out.2 = childProcesses w
  /\ os_procs out.2 = os_procs w.
Proof.
  intros L Hn Hc Hfail. cbv zeta. rewrite (restart_one n detach w Hn).
  assert (exists e, stopProcess n w = (Ok tt, emit e w)) as [e Es].
  { destruct Hfail as [H|(p & e & H & K)].
    - eexists. rewrite stopProcess_spec, H. reflexivity.
    - eexists. rewrite stopProcess_spec, H.
      apply process_kill_throws in K as [[E ->]|[E ->]]; rewrite E; reflexivity. }
  rewrite Es. cbn [snd].
  rewrite (startProcess_held _ _ _ n def detach (emit e w) L) by (cbn; eauto).
  repeat split.
Qed.

(** X12. Without [restart_on_fail] the "exit" listener only cleans up: the pid
    file and the child entry of its name are removed, nothing is spawned or
    signalled, other names are untouched; the name can then be started
    again. *)
Theorem exit_without_restart_frees_name (n : string) (def : CommandConfig)
    (detach detach' : bool) (code : option Z) (sig : option string) (w : World) :
  restart_on_fail def <> Some true ->
  let out := on_exit n detach def code sig w in
  out.1 = Ok tt
  /\ pidFiles out.2 = delete n (pidFiles w)
  /\ childProcesses out.2 = delete n (childProcesses w)
  /\ os_procs out.2 = os_procs w
  /\ spawned out.2 = spawned w
  /\ trace out.2 = ConsoleLog (Exited n code sig) :: trace w
  /\ (is_Some (lookup_cmd n) -> spawned (start n detach' out.2).2 = S (spawned w)).
Proof.
  intros Hflag. cbv zeta. rewrite exitListener_spec. cbv zeta.
  assert (match restart_on_fail def with
          | Some true => start n detach
                           (emit (ConsoleLog (Restarting n))
                              (set_childProcesses (delete n)
                                 (set_pidFiles (delete n)
                                    (emit (ConsoleLog (Exited n code sig)) w))))
          | _ => (Ok tt,
                  set_childProcesses (delete n)
                    (set_pidFiles (delete n)
                       (emit (ConsoleLog (Exited n code sig)) w)))
          end
          = (Ok tt,
             set_childProcesses (delete n)
               (set_pidFiles (delete n)
                  (emit (ConsoleLog (Exited n code sig)) w)))) as ->.
  { destruct (restart_on_fail def) as [[]|]; congruence. }
  cbn [fst snd]. repeat split.
  intros [def' L].
  set (w0 := set_childProcesses _ _).
  assert (childProcesses w0 !! n = None) as Hc by (cbn; apply lookup_delete_eq).
  assert (live_pid w0 n = None) as Hl.
  { unfold live_pid. cbn. now rewrite lookup_delete_eq. }
  now destruct (startProcess_spawn_world _ defaultEnv process_env n def' detach' w0 L Hc Hl)
    as (_ & _ & _ & _ & Hsp & _).
Qed.

End MoreLifecycle.

(** ** Status and list *)

Lemma checkStatus_body_spec (n : string) (w : World) :
  checkStatus_body n w =
  (Ok match live_pid w n with
      | Some p => StatusRunning n p
      | None => StatusNotRunning n
      end,
   (isProcessRunning n w).2).
Proof.
  rewrite isProcessRunning_live. unfold checkStatus_body, live_pid.
  destruct (pidFiles w !! n) as [p|] eqn:H.
  - destruct (os_procs w !! p) as [[]|] eqn:E; run_with H E; reflexivity.
  - run_with H. now rewrite set_pidFiles_id.
Qed.

Lemma listProcesses_body_spec (n : string) (w : World) :
  listProcesses_body n w = (Ok (ListEntry n (live_pid w n)), (isProcessRunning n w).2).
Proof.
  rewrite isProcessRunning_live. unfold listProcesses_body, live_pid.
  destruct (pidFiles w !! n) as [p|] eqn:H.
  - destruct (os_procs w !! p) as [[]|] eqn:E; run_with H E; reflexivity.
  - run_with H. now rewrite set_pidFiles_id.
Qed.

(** The liveness check preserves what is live. *)
Lemma live_pid_after_check (a m : string) (w : World) :
  live_pid (isProcessRunning a w).2 m = live_pid w m.
Proof.
  rewrite isProcessRunning_live.
  destruct (live_pid w a) as [p|] eqn:La; [reflexivity|]. cbn [snd].
  unfold live_pid in *. cbn.
  destruct (decide (m = a)) as [->|Hne].
  - rewrite lookup_delete_eq. exact (eq_sym La).
  - now rewrite lookup_delete_ne.
Qed.

Lemma pidFiles_after_check (a m : string) (w : World) :
  pidFiles (isProcessRunning a w).2 !! m
  = if decide (m = a) then live_pid w a else pidFiles w !! m.
Proof.
  rewrite isProcessRunning_live.
  destruct (live_pid w a) as [p|] eqn:La; cbn [snd].
  - destruct (decide (m = a)) as [->|]; [|reflexivity].
    now apply live_pid_recorded in La as [H _].
  - cbn. destruct (decide (m = a)) as [->|Hne].
    + apply lookup_delete_eq.
    + now apply lookup_delete_ne.
Qed.

Lemma rest_after_check (a : string) (w : World) :
  childProcesses (isProcessRunning a w).2 = childProcesses w
  /\ os_procs (isProcessRunning a w).2 = os_procs w
  /\ os_spawn (isProcessRunning a w).2 = os_spawn w
  /\ spawned (isProcessRunning a w).2 = spawned w
  /\ trace (isProcessRunning a w).2 = trace w.
Proof.
  rewrite isProcessRunning_live. destruct (live_pid w a); cbn; auto.
Qed.

Lemma world_ext (w1 w2 : World) :
  pidFiles w1 = pidFiles w2 ->
  childProcesses w1 = childProcesses w2 ->
  os_procs w1 = os_procs w2 ->
  os_spawn w1 = os_spawn w2 ->
  spawned w1 = spawned w2 ->
  trace w1 = trace w2 ->
  w1 = w2.
Proof. destruct w1, w2; cbn; intros; subst; reflexivity. Qed.

(** Loops whose body is a liveness check followed by one printed line. *)
Section ProbeLoop.

Variable body : string -> M Line.
Variable line : string -> option pid -> Line.
Hypothesis body_spec :
  forall n w, body n w = (Ok (line n (live_pid w n)), (isProcessRunning n w).2).

Lemma probe_loop_cons (a : string) (names : list string) (w : World) :
  for_of_lines (a :: names) body w =
  (Ok (line a (live_pid w a)
       :: match (for_of_lines names body (isProcessRunning a w).2).1 with
          | Ok ls => ls
          | Throw _ => []
          end),
   (for_of_lines names body (isProcessRunning a w).2).2)
  \/ exists e, (for_of_lines names body (isProcessRunning a w).2).1 = Throw e.
Proof.
  cbn [for_of_lines]. rewrite bind_run, body_spec, bind_run.
  destruct (for_of_lines names body (isProcessRunning a w).2) as [[ls|e] w']; cbn.
  - now left.
  - right. eauto.
Qed.

Lemma probe_loop_lines (names : list string) (w : World) :
  (for_of_lines names body w).1 = Ok ((fun n => line n (live_pid w n)) <$> names).
Proof.
  revert w. induction names as [|a names IH]; intros w; [reflexivity|].
  destruct (probe_loop_cons a names w) as [E|[e E]].
  - rewrite E. cbn [fst]. rewrite IH. cbn. f_equal. f_equal.
    apply list_fmap_ext. intros _ m _. now rewrite live_pid_after_check.
  - rewrite IH in E. discriminate.
Qed.

Lemma probe_loop_state_cons (a : string) (names : list string) (w : World) :
  (for_of_lines (a :: names) body w).2
  = (for_of_lines names body (isProcessRunning a w).2).2.
Proof.
  destruct (probe_loop_cons a names w) as [E|[e E]].
  - now rewrite E.
  - rewrite probe_loop_lines in E. discriminate.
Qed.

Lemma probe_loop_live (names : list string) (m : string) (w : World) :
  live_pid (for_of_lines names body w).2 m = live_pid w m.
Proof.
  revert w. induction names as [|a names IH]; intros w; [reflexivity|].
  rewrite probe_loop_state_cons, IH. apply live_pid_after_check.
Qed.

Lemma probe_loop_pidFiles (names : list string) (m : string) (w : World) :
  pidFiles (for_of_lines names body w).2 !! m
  = if bool_decide (m ∈ names) then live_pid w m else pidFiles w !! m.
Proof.
  revert w. induction names as [|a names IH]; intros w.
  - cbn. rewrite bool_decide_eq_false_2; [reflexivity | apply not_elem_of_nil].
  - rewrite probe_loop_state_cons, IH, live_pid_after_check, pidFiles_after_check.
    destruct (decide (m = a)) as [->|Hne].
    + rewrite (bool_decide_eq_true_2 (a ∈ a :: names)) by apply list_elem_of_here.
      now case_bool_decide.
    + case_bool_decide as Hin.
      * rewrite bool_decide_eq_true_2; [reflexivity | now apply list_elem_of_further].
      * rewrite bool_decide_eq_false_2; [reflexivity|].
        intros [?|?]%elem_of_cons; contradiction.
Qed.

Lemma probe_loop_rest (names : list string) (w : World) :
  childProcesses (for_of_lines names body w).2 = childProcesses w
  /\ os_procs (for_of_lines names body w).2 = os_procs w
  /\ os_spawn (for_of_lines names body w).2 = os_spawn w
  /\ spawned (for_of_lines names body w).2 = spawned w
  /\ trace (for_of_lines names body w).2 = trace w.
Proof.
  revert w. induction names as [|a names IH]; intros w; [cbn; auto|].
  rewrite probe_loop_state_cons.
  destruct (IH (isProcessRunning a w).2) as (-> & -> & -> & -> & ->).
  apply rest_after_check.
Qed.

(** Run on its own result, the loop changes nothing. *)
Lemma probe_loop_fixpoint (names : list string) (w : World) :
  (for_of_lines names body (for_of_lines names body w).2).2
  = (for_of_lines names body w).2.
Proof.
  set (w1 := (for_of_lines names body w).2).
  destruct (probe_loop_rest names w1) as (Hc & Ho & Hs & Hk & Ht).
  apply world_ext; try assumption.
  apply map_eq. intros m. rewrite probe_loop_pidFiles.
  case_bool_decide as Hin; [|reflexivity].
  unfold w1. rewrite probe_loop_live, probe_loop_pidFiles.
  now rewrite bool_decide_eq_true_2.
Qed.

End ProbeLoop.

(** *** The four copies of the liveness check agree *)

(** X4. [checkStatus], [listProcesses] and [inspectProcess] each repeat the
    check of [isProcessRunning] in their own code; all four remove the same
    stale record and leave the same state, and each reports "running" with
    the recorded pid exactly when [isProcessRunning] answers true. *)
Theorem liveness_checks_agree (commandsConfig : list (string * CommandConfig))
    (defaultEnv : Env.t) (n : string) (w : World) :
  let checked := (isProcessRunning n w).2 in
  (isProcessRunning n w).1 = Ok (bool_decide (is_Some (live_pid w n)))
  /\ checkStatus_body n w
     = (Ok match live_pid w n with
           | Some p => StatusRunning n p
           | None => StatusNotRunning n
           end, checked)
  /\ listProcesses_body n w = (Ok (ListEntry n (live_pid w n)), checked)
  /\ (forall def, lookup_command commandsConfig n = Some def ->
        exists d,
          inspectProcess commandsConfig defaultEnv n w
          = (Ok tt, emit (ConsoleLog (Inspection d)) checked)
          /\ i_pid d = live_pid w n
          /\ i_running d = bool_decide (is_Some (live_pid w n))).
Proof.
  cbv zeta. split; [|split; [|split]].
  - rewrite isProcessRunning_live. now destruct (live_pid w n).
  - apply checkStatus_body_spec.
  - apply listProcesses_body_spec.
  - intros def L. rewrite (inspectProcess_spec _ _ n def w L). cbv zeta.
    fold (live_pid w n). rewrite isProcessRunning_live.
    destruct (live_pid w n) as [p|]; cbn [snd]; eexists; (split; [|split]);
      reflexivity.
Qed.

Section StatusFacts.

Variable commandsConfig : list (string * CommandConfig).

(** X13. [checkStatus] prints one line per selected name, in order: "running"
    with the recorded pid when that pid accepts signal 0, "not running"
    otherwise. Afterwards the pid file of every selected name is exactly
    its live pid (stale files are gone), the pid files of other names, the
    child table, the processes and the trace are untouched, and a second
    run prints the same lines and changes nothing. *)
Theorem status_reports_and_heals (name : option string) (w : World) :
  let names := selected commandsConfig name in
  let out := checkStatus commandsConfig name w in
  out.1 = Ok ((fun n => match live_pid w n with
                        | Some p => StatusRunning n p
                        | None => StatusNotRunning n
                        end) <$> names)
  /\ (forall n, pidFiles out.2 !! n
                = if bool_decide (n ∈ names) then live_pid w n else pidFiles w !! n)
  /\ childProcesses out.2 = childProcesses w
  /\ os_procs out.2 = os_procs w
  /\ spawned out.2 = spawned w
  /\ trace out.2 = trace w
  /\ checkStatus commandsConfig name out.2 = out.
Proof.
  cbv zeta. unfold checkStatus.
  set (names := selected commandsConfig name).
  set (line := fun n o => match o with
                          | Some p => StatusRunning n p
                          | None => StatusNotRunning n
                          end).
  pose proof (probe_loop_lines checkStatus_body line checkStatus_body_spec) as Hl.
  destruct (probe_loop_rest checkStatus_body line checkStatus_body_spec names w)
    as (Hc & Ho & _ & Hs & Ht).
  split; [apply Hl|]. split.
  { intros n. apply (probe_loop_pidFiles checkStatus_body line checkStatus_body_spec). }
  repeat split; try assumption.
  apply injective_projections.
  - rewrite !Hl. cbn. f_equal. apply list_fmap_ext. intros _ m _. unfold line.
    now rewrite (probe_loop_live checkStatus_body line checkStatus_body_spec).
  - apply (probe_loop_fixpoint checkStatus_body line checkStatus_body_spec).
Qed.

Lemma list_matches_status_lines (w : World) :
  (listProcesses commandsConfig w).1
  = Ok (ListingHeader
        :: ((fun n => ListEntry n (live_pid w n)) <$> Object_keys commandsConfig)).
Proof.
  unfold listProcesses. rewrite bind_run.
  rewrite (surjective_pairing (for_of_lines _ listProcesses_body w)).
  now rewrite (probe_loop_lines listProcesses_body ListEntry listProcesses_body_spec).
Qed.

(** X14. [listProcesses] prints the header and one entry per configured name in
    [Object.keys] order, with the same verdicts as [checkStatus] without a
    name, and leaves the same state as that command. *)
Theorem list_matches_status (w : World) :
  let out := listProcesses commandsConfig w in
  out.1 = Ok (ListingHeader
              :: ((fun n => ListEntry n (live_pid w n)) <$> Object_keys commandsConfig))
  /\ out.2 = (checkStatus commandsConfig None w).2.
Proof.
  cbv zeta. unfold listProcesses, checkStatus, selected.
  set (keys := Object_keys commandsConfig).
  pose proof (probe_loop_lines listProcesses_body ListEntry listProcesses_body_spec
                keys w) as Hl.
  rewrite bind_run.
  rewrite (surjective_pairing (for_of_lines keys listProcesses_body w)), Hl.
  unfold mret, M_ret. cbn [fst snd]. split; [reflexivity|].
  set (line := fun n o => match o with
                          | Some p => StatusRunning n p
                          | None => StatusNotRunning n
                          end).
  destruct (probe_loop_rest listProcesses_body ListEntry listProcesses_body_spec keys w)
    as (Hc & Ho & Hsp & Hs & Ht).
  destruct (probe_loop_rest checkStatus_body line checkStatus_body_spec keys w)
    as (Hc' & Ho' & Hsp' & Hs' & Ht').
  apply world_ext; try congruence.
  apply map_eq. intros m.
  rewrite (probe_loop_pidFiles checkStatus_body line checkStatus_body_spec).
  apply (probe_loop_pidFiles listProcesses_body ListEntry listProcesses_body_spec).
Qed.

End StatusFacts.

(** ** Batch start *)


Section BatchStart.

Variable commandsConfig : list (string * CommandConfig).
Variables defaultEnv process_env : Env.t.

Local Abbreviation start := (startProcess commandsConfig defaultEnv process_env).
Local Abbreviation lookup_cmd := (lookup_command commandsConfig).
Local Abbreviation start_all :=
  (startProcesses commandsConfig defaultEnv process_env).

Lemma for_of_start_cons (a : string) (names : list string) (detach : bool) (w : World) :
  for_of (a :: names) (fun s => start s detach) w
  = for_of names (fun s => start s detach) (start a detach w).2.
Proof.
  cbn [for_of]. rewrite bind_run.
  now rewrite (surjective_pairing (start a detach w)), startProcess_ok.
Qed.

Lemma for_of_start_ok (names : list string) (detach : bool) (w : World) :
  (for_of names (fun s => start s detach) w).1 = Ok tt.
Proof.
  revert w. induction names as [|a names IH]; intros w; [reflexivity|].
  rewrite for_of_start_cons. apply IH.
Qed.

(** [startProcesses]: the loop, then one summary that depends on whether
    [childProcesses] is empty. *)
Lemma startProcesses_spec (name : option string) (detach : bool) (w : World) :
  start_all name detach w =
  (Ok tt,
   let wl := (for_of (selected commandsConfig name) (fun s => start s detach) w).2 in
   if bool_decide (0 < size (childProcesses wl)) then
     if detach then emit (ConsoleLog ServicesStartedInBackground) wl
     else emit StdinResume (emit (ConsoleLog ServicesStarted) wl)
   else emit (ConsoleLog NoServicesToStart) wl).
Proof.
  unfold startProcesses. rewrite bind_run.
  rewrite (surjective_pairing (for_of _ _ w)), for_of_start_ok. cbv zeta.
  run. cbn [fst snd].
  destruct (bool_decide (0 < size (childProcesses _))), detach; reflexivity.
Qed.



Lemma start_loop_running (detach : bool) (names : list string) :
  forall w,
    (forall n, n ∈ names -> is_Some (lookup_cmd n) /\ is_Some (live_pid w n)) ->
    for_of names (fun s => start s detach) w
    = (Ok tt, foldl (fun w n => emit (ConsoleLog (AlreadyRunning n)) w) w names).
Proof.
  induction names as [|a names IH]; intros w Hrun; [reflexivity|].
  rewrite for_of_start_cons.
  destruct (Hrun a (list_elem_of_here _ _)) as ([def L] & [p Hl]).
  apply live_pid_recorded in Hl as [H E].
  rewrite (startProcess_live _ _ _ a def p detach w L H E). cbn [snd foldl].
  apply IH. intros n Hn. exact (Hrun n (list_elem_of_further _ _ _ Hn)).
Qed.

Lemma foldl_emit_fields (names : list string) (f : string -> Event) (w : World) :
  let w' := foldl (fun w n => emit (f n) w) w names in
  pidFiles w' = pidFiles w /\ childProcesses w' = childProcesses w
  /\ os_procs w' = os_procs w /\ spawned w' = spawned w.
Proof.
  revert w. induction names as [|a names IH]; intros w; [cbn; auto|].
  cbn [foldl]. destruct (IH (emit (f a) w)) as (-> & -> & -> & ->). cbn. auto.
Qed.

(** X16. When this invocation holds no child object and every selected name is
    configured and has a live pid file (it runs under another invocation),
    [startProcesses] prints "already running" per name and then "No
    services to start."; it spawns nothing, writes nothing and does not
    keep the process alive. *)
Theorem batch_start_when_all_run_elsewhere (name : option string) (detach : bool)
    (w : World) :
  childProcesses w = ∅ ->
  (forall n, n ∈ selected commandsConfig name ->
     is_Some (lookup_cmd n) /\ is_Some (live_pid w n)) ->
  let out := start_all name detach w in
  out = (Ok tt,
         emit (ConsoleLog NoServicesToStart)
           (foldl (fun w n => emit (ConsoleLog (AlreadyRunning n)) w) w
              (selected commandsConfig name)))
  /\ spawned out.2 = spawned w
  /\ pidFiles out.2 = pidFiles w
  /\ childProcesses out.2 = ∅
  /\ os_procs out.2 = os_procs w.
Proof.
  intros Hempty Hrun. cbv zeta. rewrite startProcesses_spec. cbv zeta.
  rewrite (start_loop_running detach _ w Hrun). cbn [snd].
  destruct (foldl_emit_fields (selected commandsConfig name)
              (fun n => ConsoleLog (AlreadyRunning n)) w) as (Hp & Hc & Ho & Hs).
  cbv zeta in Hp, Hc, Ho, Hs.
  rewrite Hc, Hempty, map_size_empty.
  rewrite bool_decide_eq_false_2 by lia. cbn.
  rewrite Hp, Hc, Ho, Hs, Hempty. repeat split.
Qed.

End BatchStart.

(** ** Commands that cannot throw *)

Section NeverThrows.

Variable commandsConfig : list (string * CommandConfig).
Variables defaultEnv process_env : Env.t.

(** X17. The commands that never reach [fs.openSync], [spawn] or
    [fs.writeFileSync] return normally from every state: [stopProcesses],
    [checkStatus], [listProcesses], [inspectProcess], the SIGINT handler,
    and the "exit" listener of a definition without [restart_on_fail]. What
    [process.kill] throws is caught, and the reads and unlinks that would
    throw on a missing pid file are only reached when the file is there. *)
Theorem stop_and_queries_never_throw (w : World) :
  (forall name, (stopProcesses commandsConfig name w).1 = Ok tt)
  /\ (forall name, exists ls, (checkStatus commandsConfig name w).1 = Ok ls)
  /\ (exists ls, (listProcesses commandsConfig w).1 = Ok ls)
  /\ (forall n, (inspectProcess commandsConfig defaultEnv n w).1 = Ok tt)
  /\ (sigintHandler commandsConfig w).1 = Ok tt
  /\ (forall c code sig,
        restart_on_fail (listener_cmdConfig c) <> Some true ->
        (emit_exit commandsConfig defaultEnv process_env c code sig w).1 = Ok tt).
Proof.
  repeat split.
  - intros name. apply for_of_stop_ok.
  - intros name. eexists.
    apply (probe_loop_lines checkStatus_body
             (fun n o => match o with
                         | Some p => StatusRunning n p
                         | None => StatusNotRunning n
                         end) checkStatus_body_spec).
  - eexists. apply (list_matches_status_lines commandsConfig w).
  - intros n. destruct (lookup_command commandsConfig n) as [def|] eqn:L.
    + now rewrite (inspectProcess_spec _ _ n def w L).
    + unfold inspectProcess. now rewrite L.
  - now rewrite sigintHandler_spec.
  - intros c code sig Hflag. unfold emit_exit. rewrite exitListener_spec. cbv zeta.
    destruct (restart_on_fail (listener_cmdConfig c)) as [[]|];
      [congruence | reflexivity | reflexivity].
Qed.

End NeverThrows.

(** ** Log retrieval *)

Module LogsFacts.
Import Logs.

Local Arguments String.append : simpl nomatch.

Lemma split_lines_nonempty (s : string) : split_lines s <> [].
Proof.
  destruct s as [|c s]; cbn; [discriminate|].
  destruct (Ascii.eqb c "010"); [discriminate|].
  destruct (split_lines s); discriminate.
Qed.

Lemma join_lines_cons (x l : string) (ls : list string) :
  join_lines (x :: l :: ls) = (x ++ String "010" (join_lines (l :: ls)))%string.
Proof. reflexivity. Qed.

(** Splitting at line feeds and joining with line feeds gives the text
    back. *)
Lemma join_split (s : string) : join_lines (split_lines s) = s.
Proof.
  induction s as [|c s IH]; [reflexivity|].
  cbn [split_lines].
  pose proof (split_lines_nonempty s) as Hne.
  destruct (Ascii.eqb_spec c "010") as [->|_].
  - destruct (split_lines s) as [|l ls]; [congruence|].
    rewrite join_lines_cons, IH. reflexivity.
  - destruct (split_lines s) as [|l ls]; [congruence|].
    destruct ls as [|l2 ls'].
    + cbn in *. now rewrite IH.
    + rewrite join_lines_cons in *. rewrite <- IH. reflexivity.
Qed.

Lemma slice_zero {A} (start : num) (a : list A) :
  to_integer start = 0%Z -> slice start a = a.
Proof.
  intros H. unfold slice. rewrite H. cbn.
  replace (Z.min 0 (Z.of_nat (length a))) with 0%Z by lia. reflexivity.
Qed.

Lemma slice_from_end {A} (n : Z) (a : list A) :
  (0 < n)%Z -> slice (Int (- n)) a = drop (length a - Z.to_nat n) a.
Proof.
  intros H. unfold slice. cbn [to_integer].
  destruct (Z.ltb_spec (- n) 0); [|lia]. f_equal. lia.
Qed.

Lemma slice_from_start {A} (k : Z) (a : list A) :
  (0 <= k)%Z -> slice (Int k) a = drop (Z.to_nat k) a.
Proof.
  intros H. unfold slice. cbn [to_integer].
  destruct (Z.ltb_spec k 0); [lia|].
  destruct (Z.le_gt_cases k (Z.of_nat (length a))).
  - f_equal. lia.
  - rewrite !drop_ge by lia. reflexivity.
Qed.

(** X18. A count of 0, or one that does not parse, does not print nothing: it
    prints the whole log, trimmed. *)
Theorem zero_or_unparsable_count_prints_all (name data : string)
    (lines : option string) :
  parseInt10 (lines_or_default lines) = NaN
  \/ parseInt10 (lines_or_default lines) = Int 0 ->
  showLogs name (Some data) lines = LogText (trim data).
Proof.
  intros H. unfold showLogs. cbv zeta.
  rewrite slice_zero, join_split; [reflexivity|].
  destruct H as [-> | ->]; reflexivity.
Qed.

(** X19. A positive count [n] prints the last [n] lines of the trimmed log, or
    all of it when it has no more than [n] lines. *)
Theorem positive_count_prints_last_lines (name data : string)
    (lines : option string) (n : Z) :
  parseInt10 (lines_or_default lines) = Int n ->
  (0 < n)%Z ->
  let all := split_lines (trim data) in
  let shown := drop (length all - Z.to_nat n) all in
  showLogs name (Some data) lines = LogText (join_lines shown)
  /\ length shown = Nat.min (Z.to_nat n) (length all)
  /\ (length all <= Z.to_nat n ->
      showLogs name (Some data) lines = LogText (trim data)).
Proof.
  intros Hn Hpos. cbv zeta. unfold showLogs. cbv zeta. rewrite Hn.
  cbn [neg]. rewrite slice_from_end by exact Hpos.
  split; [reflexivity|]. split.
  - rewrite length_drop. lia.
  - intros Hle. replace (length (split_lines (trim data)) - Z.to_nat n) with 0 by lia.
    rewrite drop_0. now rewrite join_split.
Qed.

(** X20. A negative count [-k] does not count from the end: it skips the first
    [k] lines and prints the rest. *)
Theorem negative_count_skips_first_lines (name data : string)
    (lines : option string) (n : Z) :
  parseInt10 (lines_or_default lines) = Int n ->
  (n < 0)%Z ->
  showLogs name (Some data) lines
  = LogText (join_lines (drop (Z.to_nat (- n)) (split_lines (trim data)))).
Proof.
  intros Hn Hneg. unfold showLogs. cbv zeta. rewrite Hn. cbn [neg].
  now rewrite slice_from_start by lia.
Qed.

End LogsFacts.

Lemma zero_count_witness :
  Logs.showLogs "web" (Some Samples.log) (Some "0")
  = LogText (Logs.trim Samples.log).
Proof.
  apply (LogsFacts.zero_or_unparsable_count_prints_all "web" Samples.log (Some "0")).
  right. reflexivity.
Defined.

Lemma positive_count_witness :
  let all := Logs.split_lines (Logs.trim Samples.log) in
  let shown := drop (length all - Z.to_nat 10) all in
  Logs.showLogs "web" (Some Samples.log) None = LogText (Logs.join_lines shown)
  /\ length shown = Nat.min (Z.to_nat 10) (length all)
  /\ (length all <= Z.to_nat 10 ->
      Logs.showLogs "web" (Some Samples.log) None = LogText (Logs.trim Samples.log)).
Proof.
  apply (LogsFacts.positive_count_prints_last_lines "web" Samples.log None 10).
  - reflexivity.
  - lia.
Defined.

Lemma negative_count_witness :
  Logs.showLogs "web" (Some Samples.log) (Some "-2")
  = LogText (Logs.join_lines
               (drop (Z.to_nat (- (-2))) (Logs.split_lines (Logs.trim Samples.log)))).
Proof.
  apply (LogsFacts.negative_count_skips_first_lines "web" Samples.log (Some "-2") (-2)).
  - reflexivity.
  - lia.
Defined.

Example show_logs_runs :
  Logs.showLogs "web" (Some Samples.log) (Some "2")
    = LogText ("second" ++ String "010" "third")
  /\ Logs.showLogs "web" (Some Samples.log) (Some "-2") = LogText "third"
  /\ Logs.showLogs "web" (Some Samples.log) (Some "all")
     = LogText ("first" ++ String "010" ("second" ++ String "010" "third"))
  /\ Logs.showLogs "web" None (Some "2") = LogFileMissing "web".
Proof. vm_compute. repeat split; reflexivity. Qed.

(** ** The properties above on the sample states *)

Lemma liveness_check_witness :
  let out := isProcessRunning "web" Demo.started_elsewhere in
  out.1 = Ok (bool_decide (is_Some (live_pid Demo.started_elsewhere "web")))
  /\ out.2 = Demo.started_elsewhere.
Proof.
  destruct (liveness_check_only_heals "web" Demo.started_elsewhere)
    as (H1 & H2 & _).
  split; [exact H1|]. apply H2. vm_compute. eauto.
Defined.

Lemma start_touches_only_its_name_witness :
  let out := startProcess Demo.commands ∅ ∅ "worker" false Demo.started_elsewhere in
  pidFiles out.2 !! "web" = pidFiles Demo.started_elsewhere !! "web"
  /\ childProcesses out.2 !! "web" = childProcesses Demo.started_elsewhere !! "web".
Proof.
  apply (proj1 (start_touches_only_its_name Demo.commands ∅ ∅ "worker" false
                  Demo.started_elsewhere)).
  intros H. discriminate H.
Defined.



Lemma stop_signals_and_forgets_witness :
  let out := stopProcess "web" Demo.started_elsewhere in
  out.1 = Ok tt
  /\ terminated 42%positive out.2
  /\ pidFiles out.2 !! "web" = None
  /\ childProcesses out.2 !! "web" = None
  /\ (forall c, childProcesses Demo.started_elsewhere !! "web" = Some c ->
        ChildKill c SIGTERM ∈ trace out.2)
  /\ (forall m, m <> "web" ->
        pidFiles out.2 !! m = pidFiles Demo.started_elsewhere !! m
        /\ childProcesses out.2 !! m = childProcesses Demo.started_elsewhere !! m)
  /\ os_procs out.2 = os_procs Demo.started_elsewhere
  /\ stopProcess "web" out.2 = (Ok tt, emit (ConsoleLog (NoPidFile "web")) out.2).
Proof.
  apply (stop_signals_and_forgets "web" 42%positive Demo.started_elsewhere);
    reflexivity.
Defined.



Lemma held_child_blocks_restart_witness :
  let out := restartProcesses Demo.commands ∅ ∅ (Some "web") false
               Samples.after_failed_spawn in
  out.1 = Ok tt
  /\ head (trace out.2) = Some (ConsoleLog (AlreadyRunning "web"))
  /\ spawned out.2 = spawned Samples.after_failed_spawn
  /\ pidFiles out.2 = pidFiles Samples.after_failed_spawn
  /\ childProcesses out.2 = childProcesses Samples.after_failed_spawn
  /\ os_procs out.2 = os_procs Samples.after_failed_spawn.
Proof.
  apply (held_child_blocks_restart Demo.commands ∅ ∅ "web" Demo.web false
           {| child_pid := None; listener_name := "web";
              listener_detach := false; listener_cmdConfig := Demo.web |}
           Samples.after_failed_spawn).
  - reflexivity.
  - intros H. discriminate H.
  - vm_compute. reflexivity.
  - left. vm_compute. reflexivity.
Defined.

Lemma exit_without_restart_witness :
  let out := exitListener Demo.commands ∅ ∅ "web" false Demo.web (Some 0%Z) None
               Demo.after_start in
  out.1 = Ok tt
  /\ pidFiles out.2 = delete "web" (pidFiles Demo.after_start)
  /\ childProcesses out.2 = delete "web" (childProcesses Demo.after_start)
  /\ os_procs out.2 = os_procs Demo.after_start
  /\ spawned out.2 = spawned Demo.after_start
  /\ trace out.2 = ConsoleLog (Exited "web" (Some 0%Z) None) :: trace Demo.after_start
  /\ (is_Some (lookup_command Demo.commands "web") ->
      spawned (startProcess Demo.commands ∅ ∅ "web" true out.2).2
      = S (spawned Demo.after_start)).
Proof.
  apply (exit_without_restart_frees_name Demo.commands ∅ ∅ "web" Demo.web false true
           (Some 0%Z) None Demo.after_start).
  intros H. discriminate H.
Defined.

Lemma liveness_checks_agree_witness :
  exists d,
    inspectProcess Demo.commands ∅ "web" Demo.stale
    = (Ok tt, emit (ConsoleLog (Inspection d)) (isProcessRunning "web" Demo.stale).2)
    /\ i_pid d = live_pid Demo.stale "web"
    /\ i_running d = bool_decide (is_Some (live_pid Demo.stale "web")).
Proof.
  apply (proj2 (proj2 (proj2
           (liveness_checks_agree Demo.commands ∅ "web" Demo.stale))) Demo.web).
  reflexivity.
Defined.


Lemma batch_start_elsewhere_witness :
  let out := startProcesses Demo.commands ∅ ∅ None true Samples.all_elsewhere in
  out = (Ok tt,
         emit (ConsoleLog NoServicesToStart)
           (foldl (fun w n => emit (ConsoleLog (AlreadyRunning n)) w)
              Samples.all_elsewhere (selected Demo.commands None)))
  /\ spawned out.2 = spawned Samples.all_elsewhere
  /\ pidFiles out.2 = pidFiles Samples.all_elsewhere
  /\ childProcesses out.2 = ∅
  /\ os_procs out.2 = os_procs Samples.all_elsewhere.
Proof.
  apply (batch_start_when_all_run_elsewhere Demo.commands ∅ ∅ None true
           Samples.all_elsewhere).
  - reflexivity.
  - intros n Hn. cbn in Hn.
    apply elem_of_cons in Hn as [->|Hn];
      [|apply elem_of_cons in Hn as [->|Hn]; [|inversion Hn]];
      split; vm_compute; eauto.
Defined.

(** The sample states, run. *)
Example status_and_list_run :
  (checkStatus Demo.commands None Samples.all_elsewhere).1
    = Ok [StatusRunning "web" 42%positive; StatusRunning "worker" 43%positive]
  /\ (checkStatus Demo.commands (Some "web") Demo.stale).1
     = Ok [StatusNotRunning "web"]
  /\ pidFiles (checkStatus Demo.commands (Some "web") Demo.stale).2 !! "web" = None
  /\ (listProcesses Demo.commands Demo.started_elsewhere).1
     = Ok [ListingHeader; ListEntry "web" (Some 42%positive); ListEntry "worker" None]
  /\ (checkStatus Demo.commands None Samples.foreign).1
     = Ok [StatusNotRunning "web"; StatusNotRunning "worker"].
Proof. vm_compute. repeat split; reflexivity. Qed.

Lemma stop_and_queries_never_throw_witness :
  (emit_exit Demo.commands ∅ ∅ Demo.first_child (Some 1%Z) None Demo.after_start).1
  = Ok tt.
Proof.
  apply (proj2 (proj2 (proj2 (proj2 (proj2
           (stop_and_queries_never_throw Demo.commands ∅ ∅ Demo.after_start)))))).
  intros H. discriminate H.
Defined.
